(** * RIANA: isotopomer peak search, integration and run set-up

    A shallow embedding of
      - [integrate_peaks.py], class [Peaks]: the retention-time neighbourhood,
        the isotopomer m/z windows, the summed intensities and the
        trapezoidal integration;
      - [riana/riana.py], function [runriana]: the parsing of the [--iso] and
        [--thread] options and the per-fraction integration loop on a
        [ThreadPoolExecutor].

    Conventions.  Python [float]s are modelled as exact rationals ([Q]):
    the statements below are about the arithmetic the code writes down, not
    about binary64 rounding; where rounding decides, the expressions are
    evaluated on binary64 numbers in [Binary64].  Python [int]s are [Z].
    A [dict] is the list of its items in insertion order, which is the
    order [items()] iterates in.
    A Python exception is a value of [exn] returned on the left of [result].
    Strings are byte strings restricted to ASCII. *)

From Stdlib Require Import ZArith QArith Qabs String Ascii List Bool Lia.
From Stdlib Require Import Sorted PrimFloat.
Import ListNotations.

Open Scope Z_scope.

(* ================================================================== *)
(** ** Python run-time notions used by both source files *)
(* ================================================================== *)

Module Py.

Inductive exn : Type :=
| ZeroDivisionError
| TypeError
| KeyError
| ValueError
| AssertionError
| SystemExit (msg : string).

Definition result (A : Type) : Type := (exn + A)%type.

Definition ret {A} (a : A) : result A := inr a.
Definition raise {A} (e : exn) : result A := inl e.

Definition bind {A B} (m : result A) (k : A -> result B) : result B :=
  match m with
  | inl e => inl e
  | inr a => k a
  end.

Definition is_ok {A} (m : result A) : bool :=
  match m with inr _ => true | inl _ => false end.

(** [x > y] on floats. *)
Definition Qlt_bool (x y : Q) : bool := negb (Qle_bool y x).

(** [dict.get(k)] and [dict[k]] on the item list. *)
Fixpoint dict_get {V} (d : list (Z * V)) (k : Z) : option V :=
  match d with
  | [] => None
  | (k', v) :: d' => if Z.eqb k' k then Some v else dict_get d' k
  end.

Definition dict_getitem {V} (d : list (Z * V)) (k : Z) : result V :=
  match dict_get d k with
  | Some v => ret v
  | None => raise KeyError
  end.

(** [sum(l)]: the built-in starts from [0] and adds the items left to
    right. *)
Definition sum (l : list Q) : Q := fold_left Qplus l 0%Q.

(** [max(a, b)] returns [a] unless [b > a]. *)
Definition max2 (a b : Q) : Q := if Qlt_bool a b then b else a.

(** *** [str.split(',')] *)

Fixpoint split_on (sep : ascii) (cur : string) (s : string) : list string :=
  match s with
  | EmptyString => [cur]
  | String c s' =>
      if Ascii.eqb c sep
      then cur :: split_on sep EmptyString s'
      else split_on sep (cur ++ String c EmptyString)%string s'
  end.

Definition split (s : string) (sep : ascii) : list string :=
  split_on sep EmptyString s.

(** *** [int(str)] in base ten, on an ASCII string

    Leading and trailing white space (the characters 9 to 13 and the blank,
    which is what the parser skips in an ASCII string) is stripped, one
    sign is allowed, the digits may be grouped by single underscores and
    number at most 4300, the default limit of CPython 3.11 and later;
    anything else raises [ValueError] ([None] here). *)

Definition is_space (c : ascii) : bool :=
  let n := nat_of_ascii c in
  (Nat.leb 9 n && Nat.leb n 13) || Nat.eqb n 32.

Definition digit_of (c : ascii) : option Z :=
  let n := Z.of_nat (nat_of_ascii c) in
  if (48 <=? n) && (n <=? 57) then Some (n - 48) else None.

Fixpoint lstrip (s : list ascii) : list ascii :=
  match s with
  | c :: s' => if is_space c then lstrip s' else s
  | [] => []
  end.

Definition strip (s : list ascii) : list ascii :=
  rev (lstrip (rev (lstrip s))).

Fixpoint digits (acc : Z) (after_digit : bool) (s : list ascii) : option Z :=
  match s with
  | [] => if after_digit then Some acc else None
  | c :: s' =>
      match digit_of c with
      | Some d => digits (10 * acc + d) true s'
      | None =>
          if Ascii.eqb c "_"%char && after_digit
          then digits acc false s'
          else None
      end
  end.

Definition max_str_digits : Z := 4300.

Fixpoint count_digits (s : list ascii) : Z :=
  match s with
  | [] => 0
  | c :: s' =>
      (match digit_of c with Some _ => 1 | None => 0 end) + count_digits s'
  end.

Definition int_of_string (s : string) : option Z :=
  match strip (list_ascii_of_string s) with
  | [] => None
  | c :: s' =>
      if max_str_digits <? count_digits (c :: s') then None
      else if Ascii.eqb c "-"%char then option_map Z.opp (digits 0 false s')
      else if Ascii.eqb c "+"%char then digits 0 false s'
      else digits 0 false (c :: s')
  end.

(** The values an [argparse] namespace field can hold here. *)
Inductive value : Type :=
| VNone
| VInt (n : Z)
| VStr (s : string).

(** Truth value of an object in an [if]. *)
Definition truthy (v : value) : bool :=
  match v with
  | VNone => false
  | VInt n => negb (n =? 0)
  | VStr s => negb (String.eqb s EmptyString)
  end.

(** [int(v)]. *)
Definition int (v : value) : result Z :=
  match v with
  | VNone => raise TypeError
  | VInt n => ret n
  | VStr s =>
      match int_of_string s with
      | Some n => ret n
      | None => raise ValueError
      end
  end.

(** [list.sort()] on integers, as insertion into a sorted list. *)
Fixpoint insert_sorted (x : Z) (l : list Z) : list Z :=
  match l with
  | [] => [x]
  | y :: l' => if x <=? y then x :: l else y :: insert_sorted x l'
  end.

Definition sort (l : list Z) : list Z := fold_right insert_sorted [] l.

(** [list(set(l))]: one copy of every element; the order a [set]
    iterates in is not specified and the caller sorts the list next. *)
Definition list_of_set (l : list Z) : list Z := nodup Z.eq_dec l.

End Py.

Declare Scope py_scope.
Delimit Scope py_scope with py.
Notation "x <- m ;; k" := (Py.bind m (fun x => k))
  (at level 61, m at next level, right associativity) : py_scope.
Open Scope py_scope.

(* ================================================================== *)
(** ** [integrate_peaks.py]: class [Peaks] *)
(* ================================================================== *)

Module Peaks.
Import Py.

(** One row of the peptide identification table: the columns the class
    reads with [self.id.loc[index, ...]]. *)
Record id_row : Type := {
  pep_id : string;
  peptide_mass : Q;
  scan : Z;
  charge : Q
}.

(** One entry of [intensity_over_time]:
    [[nearbyScan_rt, iso, matching_int, peptide_prec_isotopomer_am]]. *)
Record sample : Type := {
  s_rt : Q;
  s_iso : Z;
  s_int : Q;
  s_mz : Q
}.

(** The attributes set by [__init__] and the setters. *)
Record t : Type := {
  msdata : list (Z * list (Q * Q));
  rt_idx : list (Z * Q);
  mslvl_idx : list (Z * Z);
  id : list id_row;
  iso_to_do : list Z;
  rt_tolerance : Q;
  mass_tolerance : Q;
  intensity_over_time : list sample
}.

Definition set_intensity_over_time (self : t) (iot : list sample) : t :=
  {| msdata := msdata self; rt_idx := rt_idx self;
     mslvl_idx := mslvl_idx self; id := id self;
     iso_to_do := iso_to_do self; rt_tolerance := rt_tolerance self;
     mass_tolerance := mass_tolerance self;
     intensity_over_time := iot |}.

(** The hydrogen mass written in the source. *)
Definition proton : Q := 1007825 # 1000000.

(** [peptide_prec = (peptide_am + (z * 1.007825)) / z]; the division
    raises when [z] is zero. *)
Definition peptide_prec (peptide_am z : Q) : result Q :=
  if Qeq_bool z 0 then raise ZeroDivisionError
  else ret ((peptide_am + z * proton) / z)%Q.

(** [peptide_prec + (iso * 1.007825 / z)] *)
Definition peptide_prec_isotopomer_am (prec : Q) (iso : Z) (z : Q) : Q :=
  (prec + inject_Z iso * proton / z)%Q.

Definition upper (am mass_tolerance : Q) : Q :=
  (am + am * (mass_tolerance / 2))%Q.

Definition lower (am mass_tolerance : Q) : Q :=
  (am - am * (mass_tolerance / 2))%Q.

(** [[I for mz_value, I in peaks if upper > mz_value > lower]] *)
Fixpoint matching (up lo : Q) (peaks : list (Q * Q)) : list Q :=
  match peaks with
  | [] => []
  | (mz_value, inten) :: peaks' =>
      if Qlt_bool mz_value up && Qlt_bool lo mz_value
      then inten :: matching up lo peaks'
      else matching up lo peaks'
  end.

Definition matching_int (up lo : Q) (peaks : list (Q * Q)) : Q :=
  sum (matching up lo peaks).

(** The comprehension building [nearby_scans].  [peptide_rt] is what
    [self.rt_idx.get(peptide_scan)] returned; subtracting [None] from a
    retention time raises [TypeError], and [self.mslvl_idx[i]] raises
    [KeyError] on a scan without MS level (it is only evaluated when the
    retention time test passed). *)
Fixpoint nearby_scans (self : t) (peptide_rt : option Q)
         (items : list (Z * Q)) : result (list (Z * Q)) :=
  match items with
  | [] => ret []
  | (i, rt) :: items' =>
      match peptide_rt with
      | None => raise TypeError
      | Some prt =>
          if Qle_bool (Qabs (rt - prt)) (rt_tolerance self)
          then
            lvl <- dict_getitem (mslvl_idx self) i ;;
            rest <- nearby_scans self peptide_rt items' ;;
            ret (if lvl =? 1 then (i, rt) :: rest else rest)
          else nearby_scans self peptide_rt items'
      end
  end.

(** The inner loop [for iso in self.iso_to_do] for one nearby scan. *)
Fixpoint scan_isotopes (self : t) (prec z : Q) (nearbyScan_id : Z)
         (nearbyScan_rt : Q) (isos : list Z) : result (list sample) :=
  match isos with
  | [] => ret []
  | iso :: isos' =>
      let am := peptide_prec_isotopomer_am prec iso z in
      let up := upper am (mass_tolerance self) in
      let lo := lower am (mass_tolerance self) in
      match dict_get (msdata self) nearbyScan_id with
      | None => raise TypeError
      | Some peaks =>
          rest <- scan_isotopes self prec z nearbyScan_id nearbyScan_rt isos' ;;
          ret ({| s_rt := nearbyScan_rt; s_iso := iso;
                  s_int := matching_int up lo peaks; s_mz := am |} :: rest)
      end
  end.

(** The outer loop over [nearby_scans]. *)
Fixpoint scan_loop (self : t) (prec z : Q) (scans : list (Z * Q))
  : result (list sample) :=
  match scans with
  | [] => ret []
  | (nearbyScan_id, nearbyScan_rt) :: scans' =>
      here <- scan_isotopes self prec z nearbyScan_id nearbyScan_rt
                (iso_to_do self) ;;
      rest <- scan_loop self prec z scans' ;;
      ret (here ++ rest)
  end.

Definition get_isotopes_from_amrt (self : t) (peptide_am : Q)
           (peptide_scan : Z) (z : Q) : result (list sample) :=
  let peptide_rt := dict_get (rt_idx self) peptide_scan in
  prec <- peptide_prec peptide_am z ;;
  scans <- nearby_scans self peptide_rt (rt_idx self) ;;
  scan_loop self prec z scans.

(** [numpy.trapz(y, x)]:
    [d = diff(x); (d * (y[1:] + y[:-1]) / 2.0).sum()]. *)
Fixpoint diff (x : list Q) : list Q :=
  match x with
  | a :: (b :: _) as x' => (b - a)%Q :: diff x'
  | _ => []
  end.

Fixpoint zip_with (f : Q -> Q -> Q) (a b : list Q) : list Q :=
  match a, b with
  | x :: a', y :: b' => f x y :: zip_with f a' b'
  | _, _ => []
  end.

Definition trapz (y x : list Q) : Q :=
  let d := diff x in
  let s := zip_with Qplus (tl y) (removelast y) in
  sum (zip_with (fun di si => (di * si / 2)%Q) d s).

(** [[[rt, I] for rt, iso, I, mz_value in self.intensity_over_time
      if iso == j]] *)
Definition isotopomer_profile (iot : list sample) (j : Z) : list (Q * Q) :=
  map (fun s => (s_rt s, s_int s)) (filter (fun s => s_iso s =? j) iot).

(** The body of the loop of [integrate_isotope_intensity] for one
    profile. *)
Definition iso_area (profile : list (Q * Q)) : Q :=
  match profile with
  | [] => 0%Q
  | _ => max2 (trapz (map snd profile) (map fst profile)) 0%Q
  end.

Definition integrate_isotope_intensity (self : t) : list Q :=
  map (fun j => iso_area (isotopomer_profile (intensity_over_time self) j))
      (iso_to_do self).

(** One row of the result: [[index, pep_id, m0, m1, ...]]. *)
Record row : Type := {
  r_index : nat;
  r_pep_id : string;
  r_areas : list Q
}.

(** [self.id.loc[index, ...]] on the default integer index. *)
Definition loc (self : t) (index : nat) : result id_row :=
  match nth_error (id self) index with
  | Some r => ret r
  | None => raise KeyError
  end.

(** The wrapper stores the intensities in the object, then integrates
    what the object holds. *)
Definition get_isotopes_from_amrt_wrapper (self : t) (index : nat)
  : result (t * row) :=
  r <- loc self index ;;
  iot <- get_isotopes_from_amrt self (peptide_mass r) (scan r) (charge r) ;;
  let self' := set_intensity_over_time self iot in
  ret (self', {| r_index := index; r_pep_id := pep_id r;
                 r_areas := integrate_isotope_intensity self' |}).

End Peaks.

(* ================================================================== *)
(** ** [concurrent.futures.ThreadPoolExecutor] as [runriana] uses it *)
(* ================================================================== *)

(** [ex.map(fn, xs)] submits one work item per element of [xs], each with
    its own future; at most [max_workers] items are being executed at any
    time, in any interleaving; the iterator it returns yields the futures'
    results in submission order.  An execution is a list of events. *)
Module Futures.

Inductive event : Type :=
| Start              (* an idle worker takes the next queued item *)
| Finish (k : nat).  (* the [k]-th busy worker finishes its item   *)

Section Pool.
Context {A B : Type}.
Variable fn : A -> B.

Record pool : Type := {
  queue : list (nat * A);      (* submitted, not started: slot, argument *)
  running : list (nat * A);    (* being executed *)
  futures : list (option B)    (* one slot per submitted item *)
}.

Fixpoint set_nth (i : nat) (b : option B) (l : list (option B))
  : list (option B) :=
  match l, i with
  | [], _ => []
  | _ :: l', O => b :: l'
  | x :: l', S i' => x :: set_nth i' b l'
  end.

Fixpoint drop_nth (k : nat) (l : list (nat * A)) : list (nat * A) :=
  match l, k with
  | [], _ => []
  | _ :: l', O => l'
  | x :: l', S k' => x :: drop_nth k' l'
  end.

Definition submit_all (xs : list A) : pool :=
  {| queue := combine (seq 0 (length xs)) xs;
     running := [];
     futures := repeat None (length xs) |}.

Definition step (max_workers : nat) (e : event) (p : pool) : option pool :=
  match e with
  | Start =>
      match queue p with
      | w :: q =>
          if Nat.ltb (length (running p)) max_workers
          then Some {| queue := q; running := running p ++ [w];
                       futures := futures p |}
          else None
      | [] => None
      end
  | Finish k =>
      match nth_error (running p) k with
      | Some (i, a) =>
          Some {| queue := queue p; running := drop_nth k (running p);
                  futures := set_nth i (Some (fn a)) (futures p) |}
      | None => None
      end
  end.

Fixpoint run (max_workers : nat) (es : list event) (p : pool)
  : option pool :=
  match es with
  | [] => Some p
  | e :: es' =>
      match step max_workers e p with
      | Some p' => run max_workers es' p'
      | None => None
      end
  end.

(** Every future read in submission order; [None] when some item has
    not finished. *)
Fixpoint results (fs : list (option B)) : option (list B) :=
  match fs with
  | [] => Some []
  | Some b :: fs' => option_map (cons b) (results fs')
  | None :: _ => None
  end.

(** The results of [ex.map(fn, xs)] along the execution [es]; [None]
    when [es] is not a complete execution of the pool. *)
Definition map (max_workers : nat) (es : list event) (xs : list A)
  : option (list B) :=
  match run max_workers es (submit_all xs) with
  | Some p =>
      match queue p, running p with
      | [], [] => results (futures p)
      | _, _ => None
      end
  | None => None
  end.

(** The execution in which one worker runs the items one at a time. *)
Fixpoint sequential (n : nat) : list event :=
  match n with
  | O => []
  | S n' => Start :: Finish 0 :: sequential n'
  end.

End Pool.

End Futures.

(* ================================================================== *)
(** ** [riana/riana.py]: function [runriana] *)
(* ================================================================== *)

Module Riana.
Import Py.

(** *** The [--iso] option *)

(** The loop [for char in args.iso.split(',')]: a token [int] rejects is
    skipped by the [except] clause, a value above 15 by the [if]. *)
Fixpoint iso_loop (chars : list string) (iso_to_do : list Z) : list Z :=
  match chars with
  | [] => iso_to_do
  | char :: chars' =>
      match int (VStr char) with
      | inr n =>
          if n <=? 15
          then iso_loop chars' (iso_to_do ++ [n])
          else iso_loop chars' iso_to_do
      | inl _ => iso_loop chars' iso_to_do
      end
  end.

Definition iso_to_do (iso : string) : result (list Z) :=
  match iso_loop (split iso ","%char) [] with
  | [] => raise (SystemExit "Error: Invalid isotopomer list given.")
  | l => ret (sort (list_of_set l))
  end.

(** *** The [--thread] option *)

(** [max(a, b)] on integers: [a] unless [b > a]. *)
Definition max_int (a b : Z) : Z := if a <? b then b else a.

(** [cpu_count] is what [os.cpu_count()] returned.  The clause
    [except ValueError or TypeError] catches [ValueError] only. *)
Definition num_threads (cpu_count : Z) (thread : value) : result Z :=
  if truthy thread then
    match int thread with
    | inr n => ret (max_int (cpu_count * 4) n)
    | inl ValueError => ret (cpu_count * 4)
    | inl e => raise e
    end
  else ret (cpu_count * 4).

(** *** One fraction *)

(** A row of [result_df]: the columns [ID], [pep_id] and one column per
    isotopomer; a missing cell is [None]. *)
Record result_row : Type := {
  c_ID : nat;
  c_pep_id : string;
  c_m : list (option Q)
}.

(** A row of [id_result_df]: the identification columns, the columns of
    the matching row of [result_df] if there is one, and [file]. *)
Record out_row : Type := {
  o_id : Peaks.id_row;
  o_result : option result_row;
  o_file : string
}.

(** [max(range(n))]. *)
Definition max_range (n : nat) : result nat :=
  match n with
  | O => raise ValueError
  | S m => ret m
  end.

(** [list(...)] over the iterator of [ex.map]: the first future holding
    an exception raises it. *)
Fixpoint collect (rs : list (result Peaks.row)) : result (list Peaks.row) :=
  match rs with
  | [] => ret []
  | r :: rs' =>
      x <- r ;;
      xs <- collect rs' ;;
      ret (x :: xs)
  end.

Fixpoint pad (n : nat) (l : list (option Q)) : list (option Q) :=
  match n, l with
  | O, _ => l
  | S n', [] => None :: pad n' []
  | S n', x :: l' => x :: pad n' l'
  end.

(** [pd.DataFrame(result, columns=df_columns)] on a list of lists: short
    rows are filled up to the widest one, whose width must be the number
    of column names. *)
Definition DataFrame (rows : list Peaks.row) (ncols : nat)
  : result (list result_row) :=
  match rows with
  | [] => ret []
  | _ =>
      let width :=
        list_max (List.map (fun r => 2 + length (Peaks.r_areas r))%nat rows) in
      if Nat.eqb width ncols
      then ret (List.map
                  (fun r => {| c_ID := Peaks.r_index r;
                               c_pep_id := Peaks.r_pep_id r;
                               c_m := pad (ncols - 2)
                                        (List.map Some (Peaks.r_areas r)) |})
                  rows)
      else raise ValueError
  end.

(** [pd.merge(left, right, on='pep_id', how='left')]: the rows of [left]
    in their order, each once per row of [right] with the same [pep_id],
    or once with empty cells when there is none. *)
Definition merge_left (left : list Peaks.id_row) (right : list result_row)
  : list (Peaks.id_row * option result_row) :=
  flat_map
    (fun l =>
       match filter (fun r => String.eqb (Peaks.pep_id l) (c_pep_id r)) right with
       | [] => [(l, None)]
       | ms => List.map (fun r => (l, Some r)) ms
       end)
    left.

Section Fraction.
(** [integrate.integrate_one] lives in a module of the package that is
    not among the sources at hand; it is a parameter here, applied the
    way [runriana] builds [integrate_one_partial]. *)
Variable mzml : Type.
Variable integrate_one :
  nat -> list Peaks.id_row -> list Z -> mzml -> Q -> Q -> bool ->
  result Peaks.row.

(** Lines 247 to 281 for one fraction: the pool is created, the tasks
    are submitted, [max(loop_)] is evaluated for the progress bar, the
    results are read in order, then the table is built.  [None] when
    [es] is not a complete execution of the pool. *)
Definition fraction (num_threads : Z) (es : list Futures.event)
           (curr_frac_filtered_id_df : list Peaks.id_row)
           (iso_to_do : list Z) (m : mzml)
           (rt_tolerance mass_tolerance : Q) (deuterium : bool)
           (file : string) : option (result (list out_row)) :=
  let loop_ := seq 0 (length curr_frac_filtered_id_df) in
  let integrate_one_partial :=
    fun i => integrate_one i curr_frac_filtered_id_df iso_to_do m
               rt_tolerance mass_tolerance deuterium in
  if num_threads <=? 0 then Some (raise ValueError)
  else
    match Futures.map integrate_one_partial (Z.to_nat num_threads) es loop_ with
    | None => None
    | Some rs =>
        Some (_ <- max_range (length loop_) ;;
              result <- collect rs ;;
              result_df <- DataFrame result (2 + length iso_to_do) ;;
              ret (List.map
                     (fun lr => {| o_id := fst lr; o_result := snd lr;
                                   o_file := file |})
                     (merge_left curr_frac_filtered_id_df result_df)))
    end.

(** The fractions of a sample one after the other; the first error
    ends the run. *)
Fixpoint fractions (num_threads : Z) (iso_to_do : list Z)
         (rt_tolerance mass_tolerance : Q) (deuterium : bool)
         (fs : list (list Peaks.id_row * mzml * string * list Futures.event))
  : option (result (list (list out_row))) :=
  match fs with
  | [] => Some (ret [])
  | (id_df, m, file, es) :: fs' =>
      match fraction num_threads es id_df iso_to_do m
                     rt_tolerance mass_tolerance deuterium file with
      | None => None
      | Some (inl e) => Some (raise e)
      | Some (inr tbl) =>
          match fractions num_threads iso_to_do rt_tolerance
                          mass_tolerance deuterium fs' with
          | None => None
          | Some (inl e) => Some (raise e)
          | Some (inr tbls) => Some (ret (tbl :: tbls))
          end
      end
  end.

(** The part of [runriana] that the isotopomer request, the thread option
    and the fraction loop make up, for one sample.  It is not the whole
    function: the steps around them (the output directory and the log file
    of lines 39 to 64, the q-value and tolerance options, the assertions on
    the project directory and on the spectrum files, the reading of the
    identifications, the loading of each spectrum file, the writing of the
    tables and the final [sys.exit]) are not in it, each of which can end
    the run on its own; the tolerances are taken as already converted.  What
    it gives is what these three parts do in a run in which every step left
    out goes through. *)
Definition runriana (cpu_count : Z) (iso : string) (thread : value)
           (rt_tolerance mass_tolerance : Q) (deuterium : bool)
           (fs : list (list Peaks.id_row * mzml * string * list Futures.event))
  : option (result (list (list out_row))) :=
  match iso_to_do iso with
  | inl e => Some (raise e)
  | inr isos =>
      match num_threads cpu_count thread with
      | inl e => Some (raise e)
      | inr n =>
          fractions n isos rt_tolerance mass_tolerance deuterium fs
      end
  end.

End Fraction.

(** Modelled from the spec: the deuterium mode of
    [riana.integrate.integrate_one], a module that is not among the
    sources at hand ([runriana] only passes it
    [deuterium_mass_defect=args.deuterium]).  Section 4.1: the base
    precursor m/z is [(M + z * 1.007825) / z] and the target for
    isotopologue [iso] is the base plus [iso * constant / z], where a
    flag substitutes another constant for the hydrogen mass.  The value of
    that constant is not given; it is the parameter [deuterium_constant]. *)
Definition iso_added_mass (deuterium_constant : Q)
           (deuterium_mass_defect : bool) : Q :=
  if deuterium_mass_defect then deuterium_constant else Peaks.proton.

Definition integrate_one_target (deuterium_constant : Q)
           (deuterium_mass_defect : bool) (M z : Q) (iso : Z) : result Q :=
  if Qeq_bool z 0 then raise ZeroDivisionError
  else ret ((M + z * Peaks.proton) / z
            + inject_Z iso
              * iso_added_mass deuterium_constant deuterium_mass_defect / z)%Q.

End Riana.

(* ================================================================== *)
(** ** [integrate_peaks.py]: the window on binary64 numbers *)
(* ================================================================== *)

(** Lines 124 and 139 to 141 once more, on IEEE 754 binary64 numbers with
    their rounding, which are Python's [float]s.  The constants are the
    numbers the literals [1.007825] and [100e-6] denote; the charge is not
    zero (Python raises on a zero divisor instead of returning an
    infinity). *)
Module Binary64.

Definition proton : float := 0x1.0200d1b71758ep+0%float.

(** [self.mass_tolerance = 100e-6], the value set by [__init__]. *)
Definition default_mass_tolerance : float := 0x1.a36e2eb1c432dp-14%float.

Definition peptide_prec (peptide_am z : float) : float :=
  ((peptide_am + (z * proton)) / z)%float.

Definition peptide_prec_isotopomer_am (prec iso z : float) : float :=
  (prec + (iso * proton / z))%float.

Definition upper (am mass_tolerance : float) : float :=
  (am + (am * (mass_tolerance / 2)))%float.

Definition lower (am mass_tolerance : float) : float :=
  (am - (am * (mass_tolerance / 2)))%float.

End Binary64.

(* ================================================================== *)
(** ** [integrate_peaks.py]: [Peaks.get_isotopes_from_amrt_multiwrapper] *)
(* ================================================================== *)

(** [Pool.imap(func, iterable, chunksize=50)] cuts the indices into batches
    of fifty, hands each batch with a pickled copy of the object to a worker
    process, which runs [func] on the items of the batch one after the
    other, and yields the items of the batches in submission order; a batch
    in which a call raises yields that exception. *)
Module PeaksMulti.
Import Py.

(** [Pool._get_tasks]: [islice(it, size)] until nothing is left; [fuel]
    bounds the number of batches. *)
Fixpoint get_tasks (fuel size : nat) (it : list nat) : list (list nat) :=
  match fuel with
  | O => []
  | S fuel' =>
      match it with
      | [] => []
      | _ => firstn size it :: get_tasks fuel' size (skipn size it)
      end
  end.

(** [mapstar]: the wrapper on each index of a batch, on the one copy of the
    object the batch came with. *)
Fixpoint mapstar (self : Peaks.t) (batch : list nat)
  : result (list Peaks.row) :=
  match batch with
  | [] => ret []
  | index :: batch' =>
      sr <- Peaks.get_isotopes_from_amrt_wrapper self index ;;
      rows <- mapstar (fst sr) batch' ;;
      ret (snd sr :: rows)
  end.

(** [list(...)] over the iterator of [imap]: the items of the batches in
    order, up to the first batch that holds an exception. *)
Fixpoint chain (batches : list (result (list Peaks.row)))
  : result (list Peaks.row) :=
  match batches with
  | [] => ret []
  | b :: batches' =>
      rows <- b ;;
      rest <- chain batches' ;;
      ret (rows ++ rest)
  end.

(** [cpu_count] is what [multiprocessing.cpu_count()] returned; [Pool]
    itself rejects a number of processes below one.  [None] when [es] is
    not a complete execution of the pool. *)
Definition get_isotopes_from_amrt_multiwrapper (cpu_count : Z)
           (es : list Futures.event) (self : Peaks.t) (num_thread : Z)
  : option (result (list Peaks.row)) :=
  if num_thread <? cpu_count - 1 then Some (raise AssertionError)
  else if num_thread <? 1 then Some (raise ValueError)
  else
    let indices := seq 0 (length (Peaks.id self)) in
    match Futures.map (mapstar self) (Z.to_nat num_thread) es
                      (get_tasks (length indices) 50 indices) with
    | None => None
    | Some batches => Some (chain batches)
    end.

End PeaksMulti.

(* ================================================================== *)
(** ** [riana/riana.py]: the spectrum files of a sample *)
(* ================================================================== *)

(** Lines 194 to 205 and the subscript of line 219: the directory listing is
    filtered by a regular expression and sorted, two assertions compare it
    with the fraction indices of the identifications, and each fraction
    index then picks its file. *)
Module Files.
Import Py.

Definition newline : ascii := "010"%char.

(** The characters [mz[Mm][Ll]] at the head of a string. *)
Definition mz_ML (s : string) : bool :=
  match s with
  | String c1 (String c2 (String c3 (String c4 _))) =>
      Ascii.eqb c1 "m" && Ascii.eqb c2 "z"
      && (Ascii.eqb c3 "M" || Ascii.eqb c3 "m")
      && (Ascii.eqb c4 "L" || Ascii.eqb c4 "l")
  | _ => false
  end.

(** What may follow one character that [.] has matched: the literal part
    here, or one more character other than a newline. *)
Fixpoint after_dot (s : string) : bool :=
  mz_ML s
  || match s with
     | String c s' => negb (Ascii.eqb c newline) && after_dot s'
     | EmptyString => false
     end.

(** [re.match('^.*.mz[Mm][Ll]', f)] as a truth value. *)
Definition re_match (f : string) : bool :=
  match f with
  | String c s' => negb (Ascii.eqb c newline) && after_dot s'
  | EmptyString => false
  end.

(** [list.sort()] on strings: the order of [str], character by
    character. *)
Fixpoint insert_sorted (x : string) (l : list string) : list string :=
  match l with
  | [] => [x]
  | y :: l' => if String.leb x y then x :: l else y :: insert_sorted x l'
  end.

Definition sort (l : list string) : list string :=
  fold_right insert_sorted [] l.

(** [max(mzid.indices)]. *)
Definition max_index (indices : list Z) : result Z :=
  match indices with
  | [] => raise ValueError
  | i :: indices' => ret (fold_left Z.max indices' i)
  end.

(** The listing filtered and sorted, then the two assertions. *)
Definition mzml_files (listdir : list string) (indices : list Z)
  : result (list string) :=
  let mzml_files := sort (filter re_match listdir) in
  if Nat.eqb (length mzml_files) 0 then raise AssertionError
  else
    m <- max_index indices ;;
    if Z.of_nat (length mzml_files) =? m + 1
    then ret mzml_files
    else raise AssertionError.

(** [mzml_files[idx]]: a negative subscript counts from the end; [None]
    stands for [IndexError]. *)
Definition getitem (l : list string) (idx : Z) : option string :=
  if 0 <=? idx then nth_error l (Z.to_nat idx)
  else if - Z.of_nat (length l) <=? idx
       then nth_error l (Z.to_nat (Z.of_nat (length l) + idx))
       else None.

End Files.

(* ================================================================== *)
(** ** Vocabulary of the statements *)
(* ================================================================== *)

Open Scope Q_scope.

(** *** The samples of one peptide *)

Section Samples.
Import Py Peaks.
Variable self : Peaks.t.

(** The peak list the loop reads for a scan. *)
Definition peaks_of (i : Z) : list (Q * Q) :=
  match dict_get (msdata self) i with
  | Some p => p
  | None => []
  end.

(** The entry appended for scan [(i, rt)] and isotopomer [iso]. *)
Definition entry (prec z : Q) (i : Z) (rt : Q) (iso : Z) : sample :=
  let am := peptide_prec_isotopomer_am prec iso z in
  {| s_rt := rt; s_iso := iso;
     s_int := matching_int (upper am (mass_tolerance self))
                           (lower am (mass_tolerance self)) (peaks_of i);
     s_mz := am |}.

(** The test of the comprehension, for a known anchor retention time. *)
Definition selected (prt : Q) (x : Z * Q) : bool :=
  Qle_bool (Qabs (snd x - prt)) (rt_tolerance self)
  && match dict_get (mslvl_idx self) (fst x) with
     | Some lvl => (lvl =? 1)%Z
     | None => false
     end.

(** Every scan of the index has an MS level and a peak list. *)
Definition indexed : Prop :=
  forall i rt, In (i, rt) (rt_idx self) ->
    dict_get (mslvl_idx self) i <> None /\ dict_get (msdata self) i <> None.

End Samples.

(** *** The window of one isotopomer *)

Definition in_window (lo up mz : Q) : Prop := lo < mz /\ mz < up.

Definition in_window_dec (lo up mz : Q) :
  {in_window lo up mz} + {~ in_window lo up mz}.
Proof.
  unfold in_window.
  destruct (Qlt_le_dec lo mz) as [H1|H1], (Qlt_le_dec mz up) as [H2|H2].
  - left. split; assumption.
  - right. intros [_ H]. exact (Qlt_not_le _ _ H H2).
  - right. intros [H _]. exact (Qlt_not_le _ _ H H1).
  - right. intros [H _]. exact (Qlt_not_le _ _ H H1).
Defined.

(** The sum the specification describes: each peak strictly inside the
    window counts with its intensity, every other peak with nothing. *)
Fixpoint window_sum (lo up : Q) (peaks : list (Q * Q)) : Q :=
  match peaks with
  | [] => 0
  | (mz, inten) :: peaks' =>
      (if in_window_dec lo up mz then inten else 0) + window_sum lo up peaks'
  end.

(** The retention times of the profile of isotopomer [j], read off the
    selected scans. *)
Definition profile_times (isos : list Z) (j : Z) (scans : list (Z * Q))
  : list Q :=
  flat_map (fun x => map (fun _ => snd x) (filter (fun iso => iso =? j)%Z isos))
           scans.

(** *** The isotopomer request *)

(** What one token of the request contributes. *)
Definition kept (tok : string) : list Z :=
  match Py.int_of_string tok with
  | Some n => if (n <=? 15)%Z then [n] else []
  | None => []
  end.

(** *** The worker pool *)

Section PoolInvariant.
Context {A B : Type}.
Variable fn : A -> B.

(** What holds of the pool all along an execution over [xs]. *)
Record pool_inv (xs : list A) (p : @Futures.pool A B) : Prop := {
  inv_length : length (Futures.futures p) = length xs;
  inv_items : forall i a,
    In (i, a) (Futures.queue p ++ Futures.running p) ->
    nth_error xs i = Some a;
  inv_pending : forall i,
    nth_error (Futures.futures p) i = Some None ->
    exists a, In (i, a) (Futures.queue p ++ Futures.running p);
  inv_done : forall i b,
    nth_error (Futures.futures p) i = Some (Some b) ->
    exists a, nth_error xs i = Some a /\ b = fn a
}.

End PoolInvariant.

(** *** One fraction *)

(** The spectra of a fraction as the integration reads them: the three
    dictionaries [Peaks.__init__] takes. *)
Record spectra : Type := {
  sp_msdata : list (Z * list (Q * Q));
  sp_rt_idx : list (Z * Q);
  sp_mslvl_idx : list (Z * Z)
}.

(** The per-peptide task of [integrate_peaks.py] put where [runriana]
    calls [integrate.integrate_one]: a [Peaks] object over the spectra of
    the fraction, the identifications associated and the options set, then
    its wrapper on the row.  The class has no deuterium mode; the flag is
    not looked at. *)
Definition peaks_task (index : nat) (id_ : list Peaks.id_row)
           (iso_to_do : list Z) (mzml : spectra)
           (rt_tolerance mass_tolerance : Q) (deuterium_mass_defect : bool)
  : Py.result Peaks.row :=
  r <- Peaks.get_isotopes_from_amrt_wrapper
         {| Peaks.msdata := sp_msdata mzml; Peaks.rt_idx := sp_rt_idx mzml;
            Peaks.mslvl_idx := sp_mslvl_idx mzml; Peaks.id := id_;
            Peaks.iso_to_do := iso_to_do;
            Peaks.rt_tolerance := rt_tolerance;
            Peaks.mass_tolerance := mass_tolerance;
            Peaks.intensity_over_time := [] |} index ;;
  Py.ret (snd r).





Section Tasks.
Variable mzml : Type.
Variable integrate_one :
  nat -> list Peaks.id_row -> list Z -> mzml -> Q -> Q -> bool ->
  Py.result Peaks.row.
Variable id_df : list Peaks.id_row.
Variable isos : list Z.
Variable m : mzml.
Variable rt_tolerance mass_tolerance : Q.
Variable deuterium : bool.



End Tasks.

(** *** Worked inputs *)

Module Scenario.

Open Scope Q_scope.

(** Three MS1 scans half a minute apart, each with one peak at the m/z of
    the unlabelled ion of a peptide of mass 1000 and charge 2. *)
Definition three_scans : spectra :=
  {| sp_msdata := [(1%Z, [(501.007825, 100)]);
                   (2%Z, [(501.007825, 200)]);
                   (3%Z, [(501.007825, 100)])];
     sp_rt_idx := [(1%Z, 9.5); (2%Z, 10); (3%Z, 10.5)];
     sp_mslvl_idx := [(1, 1); (2, 1); (3, 1)]%Z |}.

(** The same peaks in an index that lists the later scan first. *)
Definition later_scan_first : spectra :=
  {| sp_msdata := [(1%Z, [(501.007825, 100)]);
                   (2%Z, [(501.007825, 100)])];
     sp_rt_idx := [(1%Z, 10.5); (2%Z, 9.5)];
     sp_mslvl_idx := [(1, 1); (2, 1)]%Z |}.

Definition match_row (name : string) (anchor : Z) : Peaks.id_row :=
  {| Peaks.pep_id := name; Peaks.peptide_mass := 1000;
     Peaks.scan := anchor; Peaks.charge := 2 |}.

Definition peaks_over (mzml : spectra) (ids : list Peaks.id_row) : Peaks.t :=
  {| Peaks.msdata := sp_msdata mzml; Peaks.rt_idx := sp_rt_idx mzml;
     Peaks.mslvl_idx := sp_mslvl_idx mzml; Peaks.id := ids;
     Peaks.iso_to_do := [0; 1]%Z; Peaks.rt_tolerance := 1;
     Peaks.mass_tolerance := 100 # 1000000;
     Peaks.intensity_over_time := [] |}.

(** Two peptides identified in scan 2. *)
Definition two_found : list Peaks.id_row :=
  [match_row "pepA" 2; match_row "pepB" 2].

(** Three peptides, the second with an anchor scan the index lacks. *)
Definition one_lost : list Peaks.id_row :=
  [match_row "pepA" 2; match_row "pepB" 99; match_row "pepC" 2].


(** An execution of three tasks on two workers that finishes the second
    task first. *)
Definition interleaved : list Futures.event :=
  [Futures.Start; Futures.Start; Futures.Finish 1; Futures.Start;
   Futures.Finish 0; Futures.Finish 0].

End Scenario.

(** *** More vocabulary: scans, profiles, file names *)

(** The retention-time test of the comprehension alone. *)
Definition within (self : Peaks.t) (prt : Q) (x : Z * Q) : bool :=
  Qle_bool (Qabs (snd x - prt)) (Peaks.rt_tolerance self).

(** The trapezoid sum of a profile, one pair of neighbours at a time. *)
Fixpoint trap (profile : list (Q * Q)) : Q :=
  match profile with
  | a :: (b :: _) as rest =>
      (fst b - fst a) * (snd b + snd a) / 2 + trap rest
  | _ => 0
  end.

(** The row alone of what the wrapper returns. *)
Definition wrapper_row (self : Peaks.t) (index : nat) : Py.result Peaks.row :=
  r <- Peaks.get_isotopes_from_amrt_wrapper self index ;; Py.ret (snd r).

(** No character of the string is a newline. *)
Definition no_newline (s : string) : Prop :=
  forall c, In c (list_ascii_of_string s) -> c <> Files.newline.

(** What the regular expression [^.*.mz[Mm][Ll]] says of a name: a
    non-empty stretch without a newline, then [mz], then [M] or [m], then
    [L] or [l], then anything. *)
Definition names_mzml (f : string) : Prop :=
  exists pre c3 c4 rest,
    f = (pre ++ String "m" (String "z" (String c3 (String c4 rest))))%string
    /\ pre <> EmptyString
    /\ (forall c, In c (list_ascii_of_string pre) -> c <> Files.newline)
    /\ (c3 = "M"%char \/ c3 = "m"%char)
    /\ (c4 = "L"%char \/ c4 = "l"%char).

(** *** More worked inputs *)

Module Inputs.

Open Scope Q_scope.

(** Scan 2 is a fragment spectrum without peak list; scan 4 lies outside
    the retention-time window of scan 2 and has no MS level. *)
Definition mixed_levels : Peaks.t :=
  {| Peaks.msdata := [(1%Z, [(501.007825, 100)]); (3%Z, [(501.007825, 300)])];
     Peaks.rt_idx := [(1%Z, 9.5); (2%Z, 10); (3%Z, 10.5); (4%Z, 30)];
     Peaks.mslvl_idx := [(1, 1); (2, 2); (3, 1)]%Z;
     Peaks.id := [Scenario.match_row "pepA" 2];
     Peaks.iso_to_do := [0; 1]%Z; Peaks.rt_tolerance := 1;
     Peaks.mass_tolerance := 100 # 1000000;
     Peaks.intensity_over_time := [] |}.

(** The same spectra read with a negative retention-time tolerance. *)
Definition negative_tolerance : Peaks.t :=
  {| Peaks.msdata := Peaks.msdata mixed_levels;
     Peaks.rt_idx := Peaks.rt_idx mixed_levels;
     Peaks.mslvl_idx := Peaks.mslvl_idx mixed_levels;
     Peaks.id := Peaks.id mixed_levels;
     Peaks.iso_to_do := [0; 1]%Z; Peaks.rt_tolerance := - (1);
     Peaks.mass_tolerance := 100 # 1000000;
     Peaks.intensity_over_time := [] |}.

(** A listing with a text file, an index file and mixed-case extensions. *)
Definition listing : list string :=
  ["f_2.mzML"; "notes.txt"; "f_10.mzML"; "f_1.mzml"; "f_1.mzML.idx"]%string.

End Inputs.

(* ================================================================== *)
(** ** Properties *)
(* ================================================================== *)

#[local] Arguments Qabs : simpl never.
#[local] Arguments Qplus : simpl never.
#[local] Arguments Qminus : simpl never.
#[local] Arguments Qmult : simpl never.
#[local] Arguments Qdiv : simpl never.
#[local] Arguments Qopp : simpl never.
#[local] Arguments Qle_bool : simpl never.
#[local] Arguments Qeq_bool : simpl never.
#[local] Arguments inject_Z : simpl never.

(** *** Rational arithmetic and the result monad *)

Lemma Qlt_bool_iff (x y : Q) : Py.Qlt_bool x y = true <-> (x < y)%Q.
Proof.
  unfold Py.Qlt_bool. rewrite negb_true_iff. split.
  - intros H. apply Qnot_le_lt. intros Hle.
    apply Qle_bool_iff in Hle. congruence.
  - intros H. destruct (Qle_bool y x) eqn:E; [|reflexivity].
    apply Qle_bool_iff in E. exfalso. exact (Qlt_not_le _ _ H E).
Qed.

Lemma Qlt_bool_false_iff (x y : Q) : Py.Qlt_bool x y = false <-> (y <= x)%Q.
Proof.
  unfold Py.Qlt_bool. rewrite negb_false_iff. apply Qle_bool_iff.
Qed.

Lemma Qeq_bool_false_of_pos (z : Q) : (1 <= z)%Q -> Qeq_bool z 0 = false.
Proof.
  intros H. destruct (Qeq_bool z 0) eqn:E; [|reflexivity].
  apply Qeq_bool_iff in E. rewrite E in H. exfalso. apply H. reflexivity.
Qed.

Lemma fold_left_Qplus_acc (l : list Q) (a : Q) :
  fold_left Qplus l a == a + fold_left Qplus l 0.
Proof.
  revert a. induction l as [|x l IH]; intros a; simpl.
  - ring.
  - rewrite (IH (a + x)), (IH (0 + x)). ring.
Qed.

Lemma sum_cons (x : Q) (l : list Q) : Py.sum (x :: l) == x + Py.sum l.
Proof.
  unfold Py.sum. simpl. rewrite fold_left_Qplus_acc. ring.
Qed.

Lemma sum_nonneg (l : list Q) : Forall (Qle 0) l -> 0 <= Py.sum l.
Proof.
  induction 1 as [|x l Hx _ IH].
  - apply Qle_refl.
  - rewrite sum_cons. rewrite <- (Qplus_0_l 0) at 1.
    apply Qplus_le_compat; assumption.
Qed.

Lemma max2_nonneg (a : Q) : 0 <= Py.max2 a 0.
Proof.
  unfold Py.max2. destruct (Py.Qlt_bool a 0) eqn:E.
  - apply Qle_refl.
  - apply Qlt_bool_false_iff in E. exact E.
Qed.

Lemma max2_Qeq (a b : Q) : a == b -> Py.max2 a 0 == Py.max2 b 0.
Proof.
  intros H. unfold Py.max2.
  destruct (Py.Qlt_bool a 0) eqn:Ea, (Py.Qlt_bool b 0) eqn:Eb;
    try reflexivity; try assumption.
  - apply Qlt_bool_iff in Ea. apply Qlt_bool_false_iff in Eb.
    rewrite H in Ea. exfalso. exact (Qlt_not_le _ _ Ea Eb).
  - apply Qlt_bool_iff in Eb. apply Qlt_bool_false_iff in Ea.
    rewrite H in Ea. exfalso. exact (Qlt_not_le _ _ Eb Ea).
Qed.

Lemma bind_inr {A B} (m : Py.result A) (k : A -> Py.result B) (b : B) :
  Py.bind m k = inr b -> exists a, m = inr a /\ k a = inr b.
Proof.
  destruct m as [e|a]; simpl; [discriminate|]. intros H. exists a. auto.
Qed.

Ltac bind_inv H :=
  let a := fresh "a" in
  let Ha := fresh "Ha" in
  apply bind_inr in H; destruct H as (a & Ha & H).

(** *** The spectral index and the samples of one peptide *)

Section PeaksFacts.
Import Py Peaks.
Variable self : Peaks.t.


Lemma scan_isotopes_inr prec z i rt isos l :
  scan_isotopes self prec z i rt isos = inr l ->
  l = map (entry self prec z i rt) isos.
Proof.
  revert l. induction isos as [|iso isos IH]; simpl; intros l H.
  - inversion H. reflexivity.
  - unfold entry at 1, peaks_of.
    destruct (dict_get (msdata self) i) as [peaks|] eqn:E; [|discriminate].
    bind_inv H. inversion H; subst. f_equal.
    rewrite (IH _ Ha). reflexivity.
Qed.

Lemma scan_isotopes_total prec z i rt isos :
  dict_get (msdata self) i <> None ->
  scan_isotopes self prec z i rt isos = inr (map (entry self prec z i rt) isos).
Proof.
  intros Hi. induction isos as [|iso isos IH]; simpl; [reflexivity|].
  unfold entry at 1, peaks_of.
  destruct (dict_get (msdata self) i) as [peaks|] eqn:E; [|congruence].
  rewrite IH. reflexivity.
Qed.

Lemma scan_loop_inr prec z scans l :
  scan_loop self prec z scans = inr l ->
  l = flat_map (fun x => map (entry self prec z (fst x) (snd x)) (iso_to_do self))
               scans.
Proof.
  revert l. induction scans as [|[i rt] scans IH]; simpl; intros l H.
  - inversion H. reflexivity.
  - bind_inv H. bind_inv H. inversion H; subst.
    rewrite (scan_isotopes_inr _ _ _ _ _ _ Ha), (IH _ Ha0). reflexivity.
Qed.

Lemma scan_loop_total prec z scans :
  (forall x, In x scans -> dict_get (msdata self) (fst x) <> None) ->
  scan_loop self prec z scans
  = inr (flat_map
           (fun x => map (entry self prec z (fst x) (snd x)) (iso_to_do self))
           scans).
Proof.
  induction scans as [|[i rt] scans IH]; simpl; intros Hin; [reflexivity|].
  rewrite scan_isotopes_total by (apply (Hin (i, rt)); left; reflexivity).
  simpl. rewrite IH by (intros x Hx; apply Hin; right; exact Hx).
  reflexivity.
Qed.

Lemma nearby_scans_inr prt items scans :
  nearby_scans self (Some prt) items = inr scans ->
  scans = filter (selected self prt) items.
Proof.
  revert scans. induction items as [|[i rt] items IH]; simpl; intros scans H.
  - inversion H. reflexivity.
  - unfold selected at 1. simpl.
    destruct (Qle_bool (Qabs (rt - prt)) (rt_tolerance self)); simpl.
    + unfold dict_getitem in H.
      destruct (dict_get (mslvl_idx self) i) as [lvl|];
        simpl in H; [|discriminate].
      bind_inv H. inversion H; subst.
      rewrite (IH _ Ha). destruct (lvl =? 1)%Z; reflexivity.
    + apply IH. exact H.
Qed.

Lemma nearby_scans_total prt items :
  (forall x, In x items -> dict_get (mslvl_idx self) (fst x) <> None) ->
  nearby_scans self (Some prt) items = inr (filter (selected self prt) items).
Proof.
  induction items as [|[i rt] items IH]; simpl; intros Hin; [reflexivity|].
  assert (IH' := IH (fun x Hx => Hin x (or_intror Hx))).
  unfold selected at 1. simpl.
  destruct (Qle_bool (Qabs (rt - prt)) (rt_tolerance self)); simpl.
  - unfold dict_getitem.
    destruct (dict_get (mslvl_idx self) i) as [lvl|] eqn:E.
    + simpl. rewrite IH'. simpl. destruct (lvl =? 1)%Z; reflexivity.
    + exfalso. apply (Hin (i, rt)); [left; reflexivity | exact E].
  - exact IH'.
Qed.

Lemma nearby_scans_no_anchor x items :
  nearby_scans self None (x :: items) = inl TypeError.
Proof. destruct x. reflexivity. Qed.

(** What [get_isotopes_from_amrt] returns when it returns. *)
Lemma get_isotopes_from_amrt_inr am sc z iot :
  get_isotopes_from_amrt self am sc z = inr iot ->
  Qeq_bool z 0 = false /\
  exists scans,
    iot = flat_map
            (fun x => map (entry self ((am + z * proton) / z) z (fst x) (snd x))
                          (iso_to_do self))
            scans
    /\ match dict_get (rt_idx self) sc with
       | Some prt => scans = filter (selected self prt) (rt_idx self)
       | None => rt_idx self = [] /\ scans = []
       end.
Proof.
  unfold get_isotopes_from_amrt, peptide_prec. intros H.
  destruct (Qeq_bool z 0); [discriminate|]. split; [reflexivity|].
  simpl in H. bind_inv H. exists a. split.
  - apply scan_loop_inr. exact H.
  - destruct (dict_get (rt_idx self) sc) as [prt|].
    + apply nearby_scans_inr. exact Ha.
    + destruct (rt_idx self) as [|x items].
      * inversion Ha. auto.
      * rewrite nearby_scans_no_anchor in Ha. discriminate.
Qed.

(** It does return on an index that covers its scans, for a charge that
    is not zero and an anchor scan of the index. *)
Lemma get_isotopes_from_amrt_total am sc z prt :
  indexed self ->
  Qeq_bool z 0 = false ->
  dict_get (rt_idx self) sc = Some prt ->
  get_isotopes_from_amrt self am sc z
  = inr (flat_map
           (fun x => map (entry self ((am + z * proton) / z) z (fst x) (snd x))
                         (iso_to_do self))
           (filter (selected self prt) (rt_idx self))).
Proof.
  intros Hidx Hz Hsc. unfold get_isotopes_from_amrt, peptide_prec.
  rewrite Hz, Hsc. simpl.
  rewrite nearby_scans_total.
  - simpl. apply scan_loop_total.
    intros [i rt] Hx. apply filter_In in Hx. destruct Hx as [Hx _].
    apply (Hidx i rt Hx).
  - intros [i rt] Hx. apply (Hidx i rt Hx).
Qed.

End PeaksFacts.

(** *** Isotopomer m/z and tolerance window *)

(** C1. For a peptide of neutral mass [M] and charge [z >= 1] the base
    precursor m/z is [(M + z * 1.007825) / z]; the target of isotopomer 0
    is the base and the target of isotopomer [k] is the target of
    isotopomer 0 plus [k * 1.007825 / z]; every entry
    [get_isotopes_from_amrt] returns carries that target, and the function
    does return on an index that covers its scans.  In deuterium mode
    (modelled from the spec) the substituted constant takes the place of
    1.007825 in the shift. *)
Theorem target_mz_of_isotopomer (M z : Q) :
  1 <= z ->
  Peaks.peptide_prec M z = inr ((M + z * Peaks.proton) / z)
  /\ (forall prec, Peaks.peptide_prec_isotopomer_am prec 0 z == prec)
  /\ (forall prec k,
        Peaks.peptide_prec_isotopomer_am prec k z
        == Peaks.peptide_prec_isotopomer_am prec 0 z
           + inject_Z k * Peaks.proton / z)
  /\ (forall self sc iot s,
        Peaks.get_isotopes_from_amrt self M sc z = inr iot -> In s iot ->
        (Peaks.s_iso s = 0%Z ->
         Peaks.s_mz s == (M + z * Peaks.proton) / z)
        /\ Peaks.s_mz s
           == (M + z * Peaks.proton) / z
              + inject_Z (Peaks.s_iso s) * Peaks.proton / z)
  /\ (forall self sc prt,
        indexed self -> Py.dict_get (Peaks.rt_idx self) sc = Some prt ->
        exists iot, Peaks.get_isotopes_from_amrt self M sc z = inr iot)
  /\ (forall c d k,
        exists t,
          Riana.integrate_one_target c d M z k = inr t
          /\ t == (M + z * Peaks.proton) / z
                  + inject_Z k * (if d then c else Peaks.proton) / z).
Proof.
  intros Hz. assert (Hz0 := Qeq_bool_false_of_pos z Hz).
  assert (Hnz : ~ z == 0) by (apply Qeq_bool_neq; exact Hz0).
  assert (H0 : forall prec, Peaks.peptide_prec_isotopomer_am prec 0 z == prec).
  { intros prec. unfold Peaks.peptide_prec_isotopomer_am.
    change (inject_Z 0) with 0. field. exact Hnz. }
  split; [|split; [|split; [|split; [|split]]]].
  - unfold Peaks.peptide_prec. rewrite Hz0. reflexivity.
  - exact H0.
  - intros prec k. rewrite H0. reflexivity.
  - intros self sc iot s Hrun Hin.
    apply get_isotopes_from_amrt_inr in Hrun.
    destruct Hrun as (_ & scans & -> & _).
    apply in_flat_map in Hin. destruct Hin as (x & _ & Hin).
    apply in_map_iff in Hin. destruct Hin as (iso & <- & _).
    unfold entry. cbn [Peaks.s_iso Peaks.s_mz]. split.
    + intros ->. apply H0.
    + reflexivity.
  - intros self sc prt Hidx Hsc. eexists.
    apply get_isotopes_from_amrt_total; eassumption.
  - intros c d k. unfold Riana.integrate_one_target. rewrite Hz0.
    eexists. split; [reflexivity|].
    unfold Riana.iso_added_mass. reflexivity.
Qed.

(** C8, as the code has it.  In exact arithmetic the window around a
    target is symmetric: [upper - target] and [target - lower] are equal,
    both being [target * (ppm / 2)].  The binary64 values the code computes
    need not be equal. *)
Theorem tolerance_window_symmetric (target ppm : Q) :
  Peaks.upper target ppm - target == target - Peaks.lower target ppm
  /\ Peaks.upper target ppm - target == target * (ppm / 2)
  /\ target - Peaks.lower target ppm == target * (ppm / 2).
Proof.
  unfold Peaks.upper, Peaks.lower. repeat split; field.
Qed.

(** *** Summed intensity of one scan *)


Lemma window_test_iff (lo up mz : Q) :
  Py.Qlt_bool mz up && Py.Qlt_bool lo mz = true <-> in_window lo up mz.
Proof.
  rewrite andb_true_iff, !Qlt_bool_iff. unfold in_window. tauto.
Qed.

Lemma sum_app (a b : list Q) : Py.sum (a ++ b) == Py.sum a + Py.sum b.
Proof.
  induction a as [|x a IH].
  - simpl. unfold Py.sum at 2. simpl. ring.
  - simpl. rewrite !sum_cons, IH. ring.
Qed.

Lemma matching_app (up lo : Q) (a b : list (Q * Q)) :
  Peaks.matching up lo (a ++ b)
  = (Peaks.matching up lo a ++ Peaks.matching up lo b)%list.
Proof.
  induction a as [|[mz inten] a IH]; simpl; [reflexivity|].
  destruct (Py.Qlt_bool mz up && Py.Qlt_bool lo mz); simpl; rewrite IH;
    reflexivity.
Qed.

Lemma matching_int_window_sum (up lo : Q) (peaks : list (Q * Q)) :
  Peaks.matching_int up lo peaks == window_sum lo up peaks.
Proof.
  unfold Peaks.matching_int.
  induction peaks as [|[mz inten] peaks IH]; simpl.
  - reflexivity.
  - destruct (in_window_dec lo up mz) as [Hin|Hout].
    + apply window_test_iff in Hin. rewrite Hin, sum_cons, IH. reflexivity.
    + destruct (Py.Qlt_bool mz up && Py.Qlt_bool lo mz) eqn:E.
      * apply window_test_iff in E. contradiction.
      * rewrite IH. ring.
Qed.

Lemma matching_int_nonneg (up lo : Q) (peaks : list (Q * Q)) :
  Forall (fun p => 0 <= snd p) peaks -> 0 <= Peaks.matching_int up lo peaks.
Proof.
  intros H. apply sum_nonneg.
  induction H as [|[mz inten] peaks Hp _ IH]; simpl; [constructor|].
  destruct (Py.Qlt_bool mz up && Py.Qlt_bool lo mz); [constructor|]; assumption.
Qed.

(** C4. The summed intensity of a peak list for a window is the sum of the
    intensities of the peaks with [lower < m/z < upper]; a peak whose m/z
    is [lower] or [upper] adds nothing wherever it stands in the list; a
    list without a peak inside the window sums to 0. *)
Theorem matching_int_strict_window (up lo : Q) (peaks : list (Q * Q)) :
  Peaks.matching_int up lo peaks == window_sum lo up peaks
  /\ (forall mz inten pre post,
        mz == lo \/ mz == up ->
        Peaks.matching_int up lo (pre ++ (mz, inten) :: post)
        == Peaks.matching_int up lo (pre ++ post))
  /\ ((forall mz inten, In (mz, inten) peaks -> ~ in_window lo up mz) ->
      Peaks.matching_int up lo peaks == 0).
Proof.
  split; [apply matching_int_window_sum|split].
  - intros mz inten pre post Hb. unfold Peaks.matching_int.
    rewrite !matching_app. simpl.
    destruct (Py.Qlt_bool mz up && Py.Qlt_bool lo mz) eqn:E; [|reflexivity].
    apply window_test_iff in E. destruct E as [E1 E2].
    destruct Hb as [Hb|Hb]; rewrite Hb in *.
    + exfalso. exact (Qlt_irrefl _ E1).
    + exfalso. exact (Qlt_irrefl _ E2).
  - intros Hnone. rewrite matching_int_window_sum.
    induction peaks as [|[mz inten] peaks IH]; simpl; [reflexivity|].
    destruct (in_window_dec lo up mz) as [Hin|_].
    + exfalso. apply (Hnone mz inten); [left; reflexivity | exact Hin].
    + rewrite IH; [ring|]. intros mz' i' H'. apply (Hnone mz' i').
      right. exact H'.
Qed.

(** *** Integration of one isotopomer profile *)

Lemma trapz_two (t0 i0 t1 i1 : Q) :
  Peaks.trapz [i0; i1] [t0; t1] == (i0 + i1) * (t1 - t0) / 2.
Proof.
  unfold Peaks.trapz. cbn [Peaks.diff Peaks.zip_with tl removelast].
  rewrite sum_cons. unfold Py.sum. simpl. field.
Qed.

Lemma iso_area_nonneg (profile : list (Q * Q)) : 0 <= Peaks.iso_area profile.
Proof.
  destruct profile as [|p profile]; simpl.
  - apply Qle_refl.
  - apply max2_nonneg.
Qed.

Lemma integrate_isotope_intensity_nonneg (self : Peaks.t) :
  Forall (Qle 0) (Peaks.integrate_isotope_intensity self).
Proof.
  unfold Peaks.integrate_isotope_intensity. apply Forall_forall.
  intros a Ha. apply in_map_iff in Ha. destruct Ha as (j & <- & _).
  apply iso_area_nonneg.
Qed.

(** C2. The area of an empty profile is 0, that of a one-sample profile is
    0, that of a two-sample profile is [(I0+I1)*(t1-t0)/2] clamped below at
    0, which is [(I0+I1)*(t1-t0)/2] itself for [t1 > t0] and intensities
    that are not negative; a negative trapezoidal sum gives area 0; every
    area is non-negative and the integrator returns one area per requested
    isotopomer, the [k]-th area being that of the profile of the [k]-th
    requested isotopomer, also in the row the per-peptide wrapper returns. *)
Theorem iso_area_cases :
  Peaks.iso_area [] == 0
  /\ (forall t i, Peaks.iso_area [(t, i)] == 0)
  /\ (forall t0 i0 t1 i1,
        Peaks.iso_area [(t0, i0); (t1, i1)]
        == Py.max2 ((i0 + i1) * (t1 - t0) / 2) 0)
  /\ (forall t0 i0 t1 i1,
        t0 < t1 -> 0 <= i0 -> 0 <= i1 ->
        Peaks.iso_area [(t0, i0); (t1, i1)] == (i0 + i1) * (t1 - t0) / 2)
  /\ (forall profile,
        Peaks.trapz (map snd profile) (map fst profile) < 0 ->
        Peaks.iso_area profile == 0)
  /\ (forall profile, 0 <= Peaks.iso_area profile)
  /\ (forall self,
        length (Peaks.integrate_isotope_intensity self)
        = length (Peaks.iso_to_do self)
        /\ (forall k,
              nth_error (Peaks.integrate_isotope_intensity self) k
              = option_map
                  (fun j => Peaks.iso_area
                              (Peaks.isotopomer_profile
                                 (Peaks.intensity_over_time self) j))
                  (nth_error (Peaks.iso_to_do self) k))
        /\ Forall (Qle 0) (Peaks.integrate_isotope_intensity self))
  /\ (forall self index self' r,
        Peaks.get_isotopes_from_amrt_wrapper self index = inr (self', r) ->
        length (Peaks.r_areas r) = length (Peaks.iso_to_do self)
        /\ Forall (Qle 0) (Peaks.r_areas r)).
Proof.
  assert (Htwo : forall t0 i0 t1 i1,
             Peaks.iso_area [(t0, i0); (t1, i1)]
             == Py.max2 ((i0 + i1) * (t1 - t0) / 2) 0).
  { intros. cbn [Peaks.iso_area map fst snd]. apply max2_Qeq, trapz_two. }
  split; [reflexivity|]. split; [reflexivity|]. split; [exact Htwo|].
  split; [|split; [|split; [exact iso_area_nonneg|split]]].
  - intros t0 i0 t1 i1 Ht H0 H1. rewrite Htwo. unfold Py.max2.
    destruct (Py.Qlt_bool _ 0) eqn:E; [|reflexivity].
    apply Qlt_bool_iff in E. exfalso. apply (Qlt_not_le _ _ E).
    unfold Qdiv. apply Qmult_le_0_compat; [|discriminate].
    apply Qmult_le_0_compat.
    + rewrite <- (Qplus_0_l 0). apply Qplus_le_compat; assumption.
    + apply Qlt_le_weak. unfold Qminus. rewrite <- Qlt_minus_iff. exact Ht.
  - intros profile Hneg. destruct profile as [|p profile]; [reflexivity|].
    unfold Peaks.iso_area, Py.max2.
    apply Qlt_bool_iff in Hneg. rewrite Hneg. reflexivity.
  - intros self. split; [|split].
    + unfold Peaks.integrate_isotope_intensity. apply length_map.
    + intros k. unfold Peaks.integrate_isotope_intensity.
      apply nth_error_map.
    + apply integrate_isotope_intensity_nonneg.
  - intros self index self' r H.
    unfold Peaks.get_isotopes_from_amrt_wrapper in H.
    bind_inv H. bind_inv H. inversion H; subst. cbn [Peaks.r_areas]. split.
    + unfold Peaks.integrate_isotope_intensity. rewrite length_map.
      reflexivity.
    + apply integrate_isotope_intensity_nonneg.
Qed.

(** *** Order of the samples handed to the integration *)


Lemma profile_of_entries (self : Peaks.t) prec z j (scans : list (Z * Q)) :
  map fst
    (Peaks.isotopomer_profile
       (flat_map
          (fun x => map (entry self prec z (fst x) (snd x)) (Peaks.iso_to_do self))
          scans) j)
  = profile_times (Peaks.iso_to_do self) j scans.
Proof.
  unfold Peaks.isotopomer_profile, profile_times.
  induction scans as [|x scans IH]; simpl; [reflexivity|].
  rewrite filter_app, !map_app, IH. f_equal.
  generalize (Peaks.iso_to_do self) as isos.
  induction isos as [|iso isos IHi]; simpl; [reflexivity|].
  destruct (iso =? j)%Z; simpl; rewrite IHi; reflexivity.
Qed.

Lemma profile_times_sorted isos j (sel : Z * Q -> bool) (items : list (Z * Q)) :
  StronglySorted Qle (map snd items) ->
  StronglySorted Qle (profile_times isos j (filter sel items)).
Proof.
  unfold profile_times.
  induction items as [|x items IH]; simpl; intros HS; [constructor|].
  inversion HS as [|? ? HS' Hall]; subst.
  destruct (sel x); simpl; [|apply IH; exact HS'].
  assert (Hrest : Forall (Qle (snd x))
                    (flat_map
                       (fun y => map (fun _ => snd y)
                                     (filter (fun iso => (iso =? j)%Z) isos))
                       (filter sel items))).
  { apply Forall_forall. intros q Hq.
    apply in_flat_map in Hq. destruct Hq as (y & Hy & Hq).
    apply in_map_iff in Hq. destruct Hq as (_ & <- & _).
    apply filter_In in Hy. destruct Hy as [Hy _].
    rewrite Forall_forall in Hall. apply Hall.
    apply in_map. exact Hy. }
  assert (HSrest := IH HS'). clear IH.
  set (rest := flat_map _ (filter sel items)) in *. clearbody rest.
  generalize (filter (fun iso => (iso =? j)%Z) isos) as l.
  induction l as [|? l IHl]; simpl.
  - exact HSrest.
  - constructor; [exact IHl|].
    apply Forall_app. split; [|exact Hrest].
    apply Forall_forall. intros q Hq.
    apply in_map_iff in Hq. destruct Hq as (_ & <- & _). apply Qle_refl.
Qed.

(** C3, as the code has it.  The samples of an isotopomer are handed to the
    integration in the order in which the spectral index lists the selected
    scans: nothing sorts them.  They are in ascending retention time when
    the index lists its scans in ascending retention time. *)
Theorem profile_in_index_order (self : Peaks.t) (M : Q) (sc : Z) (z : Q)
        (iot : list Peaks.sample) (j : Z) :
  Peaks.get_isotopes_from_amrt self M sc z = inr iot ->
  (exists sel : Z * Q -> bool,
      map fst (Peaks.isotopomer_profile iot j)
      = profile_times (Peaks.iso_to_do self) j (filter sel (Peaks.rt_idx self)))
  /\ (Sorted Qle (map snd (Peaks.rt_idx self)) ->
      Sorted Qle (map fst (Peaks.isotopomer_profile iot j))).
Proof.
  intros H. apply get_isotopes_from_amrt_inr in H.
  destruct H as (_ & scans & -> & Hscans).
  assert (Hsel : exists sel : Z * Q -> bool,
             scans = filter sel (Peaks.rt_idx self)).
  { destruct (Py.dict_get (Peaks.rt_idx self) sc) as [prt|].
    - exists (selected self prt). exact Hscans.
    - destruct Hscans as [-> ->]. exists (fun _ => true). reflexivity. }
  destruct Hsel as (sel & ->). rewrite profile_of_entries. split.
  - exists sel. reflexivity.
  - intros HS. apply StronglySorted_Sorted, profile_times_sorted.
    apply Sorted_StronglySorted; [exact Qle_trans | exact HS].
Qed.

(** *** The isotopomer request *)

Open Scope Z_scope.


Lemma iso_loop_kept (chars : list string) (acc : list Z) :
  Riana.iso_loop chars acc = (acc ++ flat_map kept chars)%list.
Proof.
  revert acc. induction chars as [|char chars IH]; intros acc; simpl.
  - rewrite app_nil_r. reflexivity.
  - unfold kept at 1. destruct (Py.int_of_string char) as [n|]; simpl.
    + destruct (n <=? 15); rewrite IH; [rewrite <- app_assoc|]; reflexivity.
    + apply IH.
Qed.

Lemma in_kept (toks : list string) (n : Z) :
  In n (flat_map kept toks)
  <-> exists tok, In tok toks /\ Py.int_of_string tok = Some n /\ n <= 15.
Proof.
  rewrite in_flat_map. split.
  - intros (tok & Htok & Hn). exists tok. split; [exact Htok|].
    unfold kept in Hn. destruct (Py.int_of_string tok) as [m|]; [|destruct Hn].
    destruct (m <=? 15) eqn:E; [|destruct Hn].
    destruct Hn as [->|[]]. split; [reflexivity|]. apply Z.leb_le. exact E.
  - intros (tok & Htok & Hp & Hle). exists tok. split; [exact Htok|].
    unfold kept. rewrite Hp.
    apply Z.leb_le in Hle. rewrite Hle. left. reflexivity.
Qed.

Lemma insert_sorted_In (x y : Z) (l : list Z) :
  In y (Py.insert_sorted x l) <-> y = x \/ In y l.
Proof.
  induction l as [|a l IH]; simpl.
  - intuition.
  - destruct (x <=? a); simpl; [intuition|]. rewrite IH. intuition.
Qed.

Lemma sort_In (y : Z) (l : list Z) : In y (Py.sort l) <-> In y l.
Proof.
  induction l as [|a l IH]; simpl; [reflexivity|].
  rewrite insert_sorted_In, IH. intuition.
Qed.

Lemma insert_sorted_strict (x : Z) (l : list Z) :
  ~ In x l -> StronglySorted Z.lt l ->
  StronglySorted Z.lt (Py.insert_sorted x l).
Proof.
  intros Hx HS. induction HS as [|a l HS IH Ha]; simpl.
  - constructor; constructor.
  - destruct (x <=? a) eqn:E.
    + assert (x < a) by (apply Z.leb_le in E; simpl in Hx; lia).
      constructor; [constructor; assumption|].
      constructor; [assumption|].
      eapply Forall_impl; [|exact Ha]. intros b Hb. simpl in Hb. lia.
    + apply Z.leb_gt in E. constructor.
      * apply IH. intros Hin. apply Hx. right. exact Hin.
      * apply Forall_forall. intros b Hb. apply insert_sorted_In in Hb.
        destruct Hb as [->|Hb]; [exact E|].
        rewrite Forall_forall in Ha. apply Ha. exact Hb.
Qed.

Lemma sort_strict (l : list Z) : NoDup l -> StronglySorted Z.lt (Py.sort l).
Proof.
  induction 1 as [|x l Hx _ IH]; simpl; [constructor|].
  apply insert_sorted_strict; [|exact IH]. rewrite sort_In. exact Hx.
Qed.

(** The request is rejected exactly when no token is kept; otherwise the
    result is the strictly ascending list of the kept values. *)
Lemma iso_to_do_spec (iso : string) :
  match Riana.iso_to_do iso with
  | inl e =>
      e = Py.SystemExit "Error: Invalid isotopomer list given."
      /\ flat_map kept (Py.split iso ","%char) = []
  | inr l =>
      StronglySorted Z.lt l
      /\ flat_map kept (Py.split iso ","%char) <> []
      /\ forall n, In n l <-> In n (flat_map kept (Py.split iso ","%char))
  end.
Proof.
  unfold Riana.iso_to_do. rewrite iso_loop_kept. cbn [app].
  destruct (flat_map kept (Py.split iso ","%char)) as [|a l] eqn:E.
  - split; reflexivity.
  - split; [|split].
    + apply sort_strict. unfold Py.list_of_set. apply NoDup_nodup.
    + discriminate.
    + intros n. unfold Py.list_of_set. rewrite sort_In, nodup_In. reflexivity.
Qed.

(** C7. Tokens that are not integers and values above 15 are dropped; the
    values that remain come out without duplicates in strictly ascending
    order ("0,0,20,6" gives [0; 6]); when nothing remains the option
    parsing exits with an error, and so does [runriana], whatever the
    fractions and the integration task are. *)
Theorem iso_request_resolution (iso : string) :
  ((exists tok n,
       In tok (Py.split iso ","%char)
       /\ Py.int_of_string tok = Some n /\ n <= 15) ->
   exists l,
     Riana.iso_to_do iso = inr l
     /\ StronglySorted Z.lt l
     /\ forall n,
          In n l
          <-> exists tok,
                In tok (Py.split iso ","%char)
                /\ Py.int_of_string tok = Some n /\ n <= 15)
  /\ ((forall tok n,
         In tok (Py.split iso ","%char) ->
         Py.int_of_string tok = Some n -> 15 < n) ->
      Riana.iso_to_do iso
      = inl (Py.SystemExit "Error: Invalid isotopomer list given.")
      /\ forall mzml integrate_one cpu_count thread rt_tolerance
                mass_tolerance deuterium fs,
           Riana.runriana mzml integrate_one cpu_count iso thread
                          rt_tolerance mass_tolerance deuterium fs
           = Some (inl (Py.SystemExit "Error: Invalid isotopomer list given.")))
  /\ Riana.iso_to_do "0,0,20,6" = inr [0; 6].
Proof.
  pose proof (iso_to_do_spec iso) as Hspec.
  split; [|split].
  - intros (tok & n & Htok). 
    destruct (Riana.iso_to_do iso) as [e|l].
    + destruct Hspec as [_ Hnil].
      assert (Hin : In n (flat_map kept (Py.split iso ","%char)))
        by (apply in_kept; exists tok; exact Htok).
      rewrite Hnil in Hin. destruct Hin.
    + destruct Hspec as (HS & _ & Hmem). exists l.
      split; [reflexivity|]. split; [exact HS|].
      intros m. rewrite Hmem. apply in_kept.
  - intros Hnone.
    assert (Hexit : Riana.iso_to_do iso
                    = inl (Py.SystemExit "Error: Invalid isotopomer list given.")).
    { destruct (Riana.iso_to_do iso) as [e|l].
      - destruct Hspec as [-> _]. reflexivity.
      - destruct Hspec as (_ & Hne & _). exfalso.
        destruct (flat_map kept (Py.split iso ","%char)) as [|a k] eqn:E;
          [apply Hne; reflexivity|].
        assert (Hin : In a (flat_map kept (Py.split iso ","%char)))
          by (rewrite E; left; reflexivity).
        apply in_kept in Hin. destruct Hin as (tok & Htok & Hp & Hle).
        specialize (Hnone tok a Htok Hp). lia. }
    split; [exact Hexit|]. intros. unfold Riana.runriana.
    rewrite Hexit. reflexivity.
  - reflexivity.
Qed.

(** C9. A token that reads as a negative integer is kept: the value is in
    the resolved list, whose members are exactly the integers of the request
    that are at most 15, so "-1" resolves to [-1]. *)
Theorem negative_shift_accepted (iso tok : string) (n : Z) :
  In tok (Py.split iso ","%char) ->
  Py.int_of_string tok = Some n ->
  n < 0 ->
  (exists l,
      Riana.iso_to_do iso = inr l
      /\ In n l
      /\ forall m,
           In m l
           <-> exists tok',
                 In tok' (Py.split iso ","%char)
                 /\ Py.int_of_string tok' = Some m /\ m <= 15)
  /\ Riana.iso_to_do "-1" = inr [-1]
  /\ Riana.iso_to_do "0,-1,6" = inr [-1; 0; 6].
Proof.
  intros Htok Hp Hneg. split; [|split; reflexivity].
  pose proof (iso_to_do_spec iso) as Hspec.
  assert (Hin : In n (flat_map kept (Py.split iso ","%char))).
  { apply in_kept. exists tok. repeat split; [exact Htok|exact Hp|lia]. }
  destruct (Riana.iso_to_do iso) as [e|l].
  - destruct Hspec as [_ Hnil]. rewrite Hnil in Hin. destruct Hin.
  - destruct Hspec as (_ & _ & Hmem). exists l.
    split; [reflexivity|]. split; [apply Hmem; exact Hin|].
    intros m. rewrite Hmem. apply in_kept.
Qed.

(** *** The size of the worker pool *)

(** C10. Whatever [--thread] holds, the pool size is defined and is the
    larger of four times the CPU count and the requested integer, hence at
    least four times the CPU count; it is exactly four times the CPU count
    when the option is 0, absent or not an integer. *)
Theorem pool_size (cpu_count : Z) (thread : Py.value) :
  1 <= cpu_count ->
  (exists n,
      Riana.num_threads cpu_count thread = inr n
      /\ cpu_count * 4 <= n
      /\ match Py.int thread with
         | inr t => n = Z.max (cpu_count * 4) t
         | inl _ => n = cpu_count * 4
         end)
  /\ Riana.num_threads cpu_count (Py.VInt 0) = inr (cpu_count * 4)
  /\ Riana.num_threads cpu_count Py.VNone = inr (cpu_count * 4)
  /\ (forall s, Py.int_of_string s = None ->
                Riana.num_threads cpu_count (Py.VStr s) = inr (cpu_count * 4)).
Proof.
  intros Hcpu.
  assert (Hmax : forall t, Riana.max_int (cpu_count * 4) t
                           = Z.max (cpu_count * 4) t).
  { intros t. unfold Riana.max_int.
    destruct (cpu_count * 4 <? t) eqn:E;
      [apply Z.ltb_lt in E | apply Z.ltb_ge in E]; lia. }
  split; [|split; [reflexivity|split; [reflexivity|]]].
  - unfold Riana.num_threads. destruct thread as [|t|s]; simpl.
    + exists (cpu_count * 4). repeat split; lia.
    + destruct (t =? 0) eqn:E; simpl.
      * apply Z.eqb_eq in E. subst t.
        exists (cpu_count * 4). repeat split; lia.
      * exists (Riana.max_int (cpu_count * 4) t). rewrite Hmax.
        repeat split; lia.
    + destruct (Py.int_of_string s) as [t|] eqn:Es.
      * assert (Hne : String.eqb s EmptyString = false).
        { destruct s; [discriminate Es | reflexivity]. }
        rewrite Hne. simpl.
        exists (Riana.max_int (cpu_count * 4) t). rewrite Hmax.
        repeat split; lia.
      * destruct (negb (String.eqb s EmptyString));
          exists (cpu_count * 4); repeat split; lia.
  - intros s Hs. unfold Riana.num_threads. simpl. rewrite Hs.
    destruct (negb (String.eqb s EmptyString)); reflexivity.
Qed.

(** *** The worker pool returns the results in submission order *)

Section PoolFacts.
Context {A B : Type}.
Variable fn : A -> B.

Let pool : Type := @Futures.pool A B.

Lemma length_set_nth i (b : option B) l :
  length (Futures.set_nth i b l) = length l.
Proof.
  revert i. induction l as [|x l IH]; intros [|i]; simpl; auto.
Qed.

Lemma nth_error_set_nth_eq i (b : option B) l :
  (i < length l)%nat -> nth_error (Futures.set_nth i b l) i = Some b.
Proof.
  revert i. induction l as [|x l IH]; intros [|i] H; simpl in *;
    try lia; [reflexivity|]. apply IH. lia.
Qed.

Lemma nth_error_set_nth_neq i j (b : option B) l :
  i <> j -> nth_error (Futures.set_nth i b l) j = nth_error l j.
Proof.
  revert i j. induction l as [|x l IH]; intros [|i] [|j] H; simpl;
    try reflexivity; try congruence.
  apply IH. congruence.
Qed.

Lemma In_drop_nth k (x : nat * A) l :
  In x (Futures.drop_nth k l) -> In x l.
Proof.
  revert k. induction l as [|y l IH]; intros [|k]; simpl; auto.
  intros [H|H]; [left; exact H | right; exact (IH _ H)].
Qed.

Lemma In_drop_nth_other k (x y : nat * A) l :
  In x l -> nth_error l k = Some y -> x <> y ->
  In x (Futures.drop_nth k l).
Proof.
  revert k. induction l as [|z l IH]; intros [|k]; simpl; try tauto.
  - intros [H|H] Hy Hne; [|exact H]. congruence.
  - intros [H|H] Hy Hne; [left; exact H | right; exact (IH _ H Hy Hne)].
Qed.

Lemma In_combine_seq (xs : list A) s i a :
  In (i, a) (combine (seq s (length xs)) xs)
  <-> (s <= i)%nat /\ nth_error xs (i - s) = Some a.
Proof.
  revert s. induction xs as [|x xs IH]; intros s; simpl.
  - split; [tauto|]. intros [_ H]. destruct (i - s)%nat; discriminate.
  - rewrite IH. split.
    + intros [H|[H1 H2]].
      * inversion H; subst. rewrite Nat.sub_diag. split; [lia|reflexivity].
      * split; [lia|]. replace (i - s)%nat with (S (i - S s)) by lia.
        exact H2.
    + intros [H1 H2]. destruct (Nat.eq_dec i s) as [->|Hne].
      * rewrite Nat.sub_diag in H2. inversion H2. left. reflexivity.
      * right. split; [lia|].
        replace (i - s)%nat with (S (i - S s)) in H2 by lia. exact H2.
Qed.


Lemma pool_inv_submit_all xs : pool_inv fn xs (Futures.submit_all xs).
Proof.
  constructor; unfold Futures.submit_all; simpl.
  - apply repeat_length.
  - intros i a H. rewrite app_nil_r in H. apply In_combine_seq in H.
    rewrite Nat.sub_0_r in H. apply H.
  - intros i H. rewrite app_nil_r.
    assert (Hi : (i < length xs)%nat).
    { rewrite <- (repeat_length (@None B) (length xs)).
      apply nth_error_Some. congruence. }
    destruct (nth_error xs i) as [a|] eqn:E.
    + exists a. apply In_combine_seq. rewrite Nat.sub_0_r.
      split; [lia|exact E].
    + apply nth_error_None in E. lia.
  - intros i b H. exfalso.
    apply nth_error_In, repeat_spec in H. discriminate.
Qed.

Lemma pool_inv_step xs max_workers e p p' :
  pool_inv fn xs p -> Futures.step fn max_workers e p = Some p' ->
  pool_inv fn xs p'.
Proof.
  intros [Hlen Hitems Hpend Hdone] Hstep. destruct e as [|k]; simpl in Hstep.
  - destruct (Futures.queue p) as [|w q] eqn:Eq; [discriminate|].
    destruct (Nat.ltb _ _); [|discriminate].
    inversion Hstep; subst; clear Hstep.
    constructor; simpl.
    + exact Hlen.
    + intros i a H. apply (Hitems i a).
      rewrite !in_app_iff in *. simpl in *. tauto.
    + intros i H. destruct (Hpend i H) as (a & Ha). exists a.
      rewrite !in_app_iff in *. simpl in *. tauto.
    + exact Hdone.
  - destruct (nth_error (Futures.running p) k) as [[i a]|] eqn:Ek;
      [|discriminate].
    inversion Hstep; subst; clear Hstep.
    assert (Hia : nth_error xs i = Some a).
    { apply Hitems. apply in_app_iff. right.
      eapply nth_error_In. exact Ek. }
    assert (Hi : (i < length (Futures.futures p))%nat).
    { rewrite Hlen. apply nth_error_Some. congruence. }
    constructor; simpl.
    + rewrite length_set_nth. exact Hlen.
    + intros j b H. apply (Hitems j b).
      rewrite in_app_iff in *. destruct H as [H|H]; [left; exact H|].
      right. eapply In_drop_nth. exact H.
    + intros j H. destruct (Nat.eq_dec i j) as [<-|Hne].
      * rewrite nth_error_set_nth_eq in H by exact Hi. discriminate.
      * rewrite nth_error_set_nth_neq in H by exact Hne.
        destruct (Hpend j H) as (b & Hb). exists b.
        rewrite in_app_iff in *. destruct Hb as [Hb|Hb]; [left; exact Hb|].
        right. eapply In_drop_nth_other; [exact Hb | exact Ek | congruence].
    + intros j b H. destruct (Nat.eq_dec i j) as [<-|Hne].
      * rewrite nth_error_set_nth_eq in H by exact Hi.
        inversion H; subst. exists a. split; [exact Hia|reflexivity].
      * rewrite nth_error_set_nth_neq in H by exact Hne.
        exact (Hdone j b H).
Qed.

Lemma pool_inv_run xs max_workers es p p' :
  pool_inv fn xs p -> Futures.run fn max_workers es p = Some p' ->
  pool_inv fn xs p'.
Proof.
  revert p. induction es as [|e es IH]; simpl; intros p Hinv Hrun.
  - inversion Hrun; subst. exact Hinv.
  - destruct (Futures.step fn max_workers e p) as [p1|] eqn:E; [|discriminate].
    apply (IH p1); [|exact Hrun]. eapply pool_inv_step; eassumption.
Qed.

Lemma results_complete (fs : list (option B)) (xs : list A) :
  length fs = length xs ->
  (forall i, nth_error fs i <> Some None) ->
  (forall i b, nth_error fs i = Some (Some b) ->
               exists a, nth_error xs i = Some a /\ b = fn a) ->
  Futures.results fs = Some (map fn xs).
Proof.
  revert xs. induction fs as [|f fs IH]; intros [|x xs] Hlen Hnone Hdone;
    simpl in *; try discriminate; [reflexivity|].
  destruct f as [b|]; [|exfalso; exact (Hnone O eq_refl)].
  destruct (Hdone O b eq_refl) as (a & Ha & ->). inversion Ha; subst.
  rewrite (IH xs); [reflexivity | lia | |].
  - intros i. exact (Hnone (S i)).
  - intros i b'. exact (Hdone (S i) b').
Qed.

(** Every complete execution yields [fn] mapped over the arguments, for
    every number of workers. *)
Lemma map_in_submission_order max_workers es xs out :
  Futures.map fn max_workers es xs = Some out -> out = map fn xs.
Proof.
  unfold Futures.map. intros H.
  destruct (Futures.run fn max_workers es (Futures.submit_all xs))
    as [p|] eqn:Erun; [|discriminate].
  destruct (Futures.queue p) eqn:Eq; [|discriminate].
  destruct (Futures.running p) eqn:Er; [|discriminate].
  pose proof (pool_inv_run _ _ _ _ _ (pool_inv_submit_all xs) Erun)
    as [Hlen _ Hpend Hdone].
  rewrite (results_complete _ xs Hlen) in H.
  - inversion H. reflexivity.
  - intros i Hi. destruct (Hpend i Hi) as (a & Ha).
    rewrite Eq, Er in Ha. destruct Ha.
  - exact Hdone.
Qed.

Lemma run_sequential max_workers (p : pool) :
  (1 <= max_workers)%nat -> Futures.running p = [] ->
  exists p',
    Futures.run fn max_workers
                (Futures.sequential (length (Futures.queue p))) p = Some p'
    /\ Futures.queue p' = [] /\ Futures.running p' = [].
Proof.
  intros Hw. destruct p as [q r fs]. simpl. intros ->.
  revert fs. induction q as [|[i a] q IH]; intros fs; simpl.
  - eexists. split; [reflexivity|]. split; reflexivity.
  - destruct (Nat.ltb 0 max_workers) eqn:E;
      [|apply Nat.ltb_ge in E; lia].
    simpl. apply IH.
Qed.

(** A complete execution exists for every pool of at least one worker. *)
Lemma map_sequential max_workers xs :
  (1 <= max_workers)%nat ->
  Futures.map fn max_workers (Futures.sequential (length xs)) xs
  = Some (map fn xs).
Proof.
  intros Hw.
  destruct (run_sequential max_workers (@Futures.submit_all A B xs) Hw eq_refl)
    as (p' & Hrun & Hq & Hr).
  assert (Hlenq : length (Futures.queue (@Futures.submit_all A B xs))
                  = length xs).
  { unfold Futures.submit_all. simpl.
    rewrite length_combine, length_seq. apply Nat.min_id. }
  rewrite Hlenq in Hrun.
  destruct (Futures.map fn max_workers (Futures.sequential (length xs)) xs)
    as [out|] eqn:E.
  - f_equal. eapply map_in_submission_order. exact E.
  - exfalso. unfold Futures.map in E. rewrite Hrun, Hq, Hr in E.
    pose proof (pool_inv_run _ _ _ _ _ (pool_inv_submit_all xs) Hrun)
      as [Hlen _ Hpend Hdone].
    rewrite (results_complete _ xs Hlen) in E; [discriminate| |exact Hdone].
    intros i Hi. destruct (Hpend i Hi) as (a & Ha).
    rewrite Hq, Hr in Ha. destruct Ha.
Qed.

End PoolFacts.

(** *** One fraction: rows, order, failures *)



Lemma collect_inl (rs : list (Py.result Peaks.row)) e :
  In (inl e) rs -> exists e', Riana.collect rs = inl e'.
Proof.
  induction rs as [|r rs IH]; simpl; [tauto|].
  intros [->|H].
  - exists e. reflexivity.
  - destruct r as [e0|x]; simpl; [exists e0; reflexivity|].
    destruct (IH H) as (e' & ->). exists e'. reflexivity.
Qed.











Section FractionFacts.
Variable mzml : Type.
Variable integrate_one :
  nat -> list Peaks.id_row -> list Z -> mzml -> Q -> Q -> bool ->
  Py.result Peaks.row.

Variable id_df : list Peaks.id_row.
Variable isos : list Z.
Variable m : mzml.
Variable rt_tolerance mass_tolerance : Q.
Variable deuterium : bool.
Variable file : string.



End FractionFacts.


(** C6, as the code has it.  A match row whose anchor scan is missing from
    a spectral index that is not empty makes the per-peptide wrapper raise
    ([ZeroDivisionError] for a zero charge, else [TypeError]): nothing in
    the task catches it.  A fraction in which a task raises yields an error
    for every execution of the pool, not a table, so with the wrapper as
    the task a missing anchor scan ends the fraction.  Only an empty index
    gives the row all-zero areas. *)
Theorem missing_anchor_not_caught :
  (forall self index r,
      nth_error (Peaks.id self) index = Some r ->
      Py.dict_get (Peaks.rt_idx self) (Peaks.scan r) = None ->
      Peaks.rt_idx self <> [] ->
      Peaks.get_isotopes_from_amrt_wrapper self index
      = inl (if Qeq_bool (Peaks.charge r) 0
             then Py.ZeroDivisionError else Py.TypeError))
  /\ (forall mzml integrate_one num_threads es id_df isos (m : mzml)
             rt_tolerance mass_tolerance deuterium file i e out,
        (i < length id_df)%nat ->
        integrate_one i id_df isos m rt_tolerance mass_tolerance deuterium
        = inl e ->
        Riana.fraction mzml integrate_one num_threads es id_df isos m
                       rt_tolerance mass_tolerance deuterium file = Some out ->
        exists e', out = inl e')
  /\ (forall num_threads es id_df isos m rt_tolerance mass_tolerance
             deuterium file i r out,
        nth_error id_df i = Some r ->
        Py.dict_get (sp_rt_idx m) (Peaks.scan r) = None ->
        sp_rt_idx m <> [] ->
        Riana.fraction spectra peaks_task num_threads es id_df isos m
                       rt_tolerance mass_tolerance deuterium file = Some out ->
        exists e', out = inl e')
  /\ (forall self index r,
        nth_error (Peaks.id self) index = Some r ->
        Peaks.rt_idx self = [] ->
        Qeq_bool (Peaks.charge r) 0 = false ->
        exists self',
          Peaks.get_isotopes_from_amrt_wrapper self index
          = inr (self', {| Peaks.r_index := index;
                           Peaks.r_pep_id := Peaks.pep_id r;
                           Peaks.r_areas :=
                             map (fun _ => 0%Q) (Peaks.iso_to_do self) |})).
Proof.
  assert (Hwrap : forall self index r,
             nth_error (Peaks.id self) index = Some r ->
             Py.dict_get (Peaks.rt_idx self) (Peaks.scan r) = None ->
             Peaks.rt_idx self <> [] ->
             Peaks.get_isotopes_from_amrt_wrapper self index
             = inl (if Qeq_bool (Peaks.charge r) 0
                    then Py.ZeroDivisionError else Py.TypeError)).
  { intros self index r Hr Hsc Hne.
    unfold Peaks.get_isotopes_from_amrt_wrapper, Peaks.loc.
    rewrite Hr. cbn [Py.bind Py.ret].
    unfold Peaks.get_isotopes_from_amrt, Peaks.peptide_prec.
    destruct (Qeq_bool (Peaks.charge r) 0); [reflexivity|].
    rewrite Hsc. cbn [Py.bind Py.ret].
    destruct (Peaks.rt_idx self) as [|x items]; [congruence|].
    rewrite nearby_scans_no_anchor. reflexivity. }
  assert (Hfrac : forall mzml integrate_one num_threads es id_df isos (m : mzml)
                         rt_tolerance mass_tolerance deuterium file i e out,
             (i < length id_df)%nat ->
             integrate_one i id_df isos m rt_tolerance mass_tolerance deuterium
             = inl e ->
             Riana.fraction mzml integrate_one num_threads es id_df isos m
               rt_tolerance mass_tolerance deuterium file = Some out ->
             exists e', out = inl e').
  { intros mzml integrate_one num_threads es id_df isos m rt_tolerance
           mass_tolerance deuterium file i e out Hi He.
    unfold Riana.fraction.
    destruct (num_threads <=? 0).
    - intros H. inversion H. eexists. reflexivity.
    - destruct (Futures.map _ _ es (seq 0 (length id_df))) as [rs|] eqn:Emap;
        [|discriminate].
      apply map_in_submission_order in Emap. subst rs.
      intros H. inversion H; subst; clear H.
      destruct (Riana.max_range _) as [e0|k]; [eexists; reflexivity|].
      cbn [Py.bind].
      destruct (Riana.collect _) as [e'|rows] eqn:Ec;
        [exists e'; reflexivity|].
      exfalso.
      match type of Ec with
      | Riana.collect ?rs = _ =>
          assert (Hin : In (inl e) rs)
      end.
      { rewrite <- He.
        apply (in_map (fun i0 => integrate_one i0 id_df isos m rt_tolerance
                                    mass_tolerance deuterium)).
        apply in_seq. lia. }
      destruct (collect_inl _ e Hin) as (e' & He'). congruence. }
  split; [exact Hwrap|]. split; [exact Hfrac|]. split.
  - intros num_threads es id_df isos m rt_tolerance mass_tolerance deuterium
           file i r out Hr Hsc Hne Hrun.
    eapply (Hfrac spectra peaks_task); [| |exact Hrun].
    + apply nth_error_Some. rewrite Hr. discriminate.
    + unfold peaks_task. rewrite (Hwrap _ i r); [reflexivity|exact Hr| |];
        assumption.
  - intros self index r Hr Hidx Hz.
    unfold Peaks.get_isotopes_from_amrt_wrapper, Peaks.loc.
    rewrite Hr. cbn [Py.bind Py.ret].
    unfold Peaks.get_isotopes_from_amrt, Peaks.peptide_prec.
    rewrite Hz, Hidx. cbn.
    eexists. reflexivity.
Qed.


(** The end-to-end scenario of the specification: areas 150 and 0. *)
Example scenario_areas :
  exists self' row,
    Peaks.get_isotopes_from_amrt_wrapper
      (Scenario.peaks_over Scenario.three_scans [Scenario.match_row "pepA" 2]) 0
    = inr (self', row)
    /\ Forall2 Qeq (Peaks.r_areas row) [150%Q; 0%Q].
Proof.
  eexists. eexists. split; [vm_compute; reflexivity|].
  repeat constructor.
Qed.

(** *** Statements of the specification that fail, at explicit inputs *)

(** C3 as stated fails: an index that lists the later scan first hands the
    samples to the integration in that order. *)
Lemma later_scan_first_not_sorted :
  exists iot,
    Peaks.get_isotopes_from_amrt
      (Scenario.peaks_over Scenario.later_scan_first [Scenario.match_row "pepA" 1])
      1000 1 2 = inr iot
    /\ map fst (Peaks.isotopomer_profile iot 0) = [10.5; 9.5]%Q
    /\ ~ Sorted Qle (map fst (Peaks.isotopomer_profile iot 0)).
Proof.
  eexists. split; [vm_compute; reflexivity|].
  split; [vm_compute; reflexivity|].
  intros HS. vm_compute in HS.
  inversion HS as [|? ? _ Hd]; subst. inversion Hd as [|? ? Hle]; subst.
  apply Hle. reflexivity.
Qed.

(** C8 as stated fails: for a peptide of mass 510 and charge 2 and a
    tolerance of 100e-6 the two differences, computed in binary64 as the
    code computes them, are 0.012800391249982113 and
    0.012800391250010534. *)
Lemma window_not_symmetric_in_binary64 :
  PrimFloat.eqb
    (PrimFloat.sub
       (Binary64.upper
          (Binary64.peptide_prec_isotopomer_am (Binary64.peptide_prec 510 2) 0 2)
          Binary64.default_mass_tolerance)
       (Binary64.peptide_prec_isotopomer_am (Binary64.peptide_prec 510 2) 0 2))
    (PrimFloat.sub
       (Binary64.peptide_prec_isotopomer_am (Binary64.peptide_prec 510 2) 0 2)
       (Binary64.lower
          (Binary64.peptide_prec_isotopomer_am (Binary64.peptide_prec 510 2) 0 2)
          Binary64.default_mass_tolerance))
  = false
  /\ PrimFloat.sub
       (Binary64.upper
          (Binary64.peptide_prec_isotopomer_am (Binary64.peptide_prec 510 2) 0 2)
          Binary64.default_mass_tolerance)
       (Binary64.peptide_prec_isotopomer_am (Binary64.peptide_prec 510 2) 0 2)
     = 0x1.a37176e5b8p-7%float
  /\ PrimFloat.sub
       (Binary64.peptide_prec_isotopomer_am (Binary64.peptide_prec 510 2) 0 2)
       (Binary64.lower
          (Binary64.peptide_prec_isotopomer_am (Binary64.peptide_prec 510 2) 0 2)
          Binary64.default_mass_tolerance)
     = 0x1.a37176e5bcp-7%float.
Proof.
  repeat split; vm_compute; reflexivity.
Qed.


(** C6 as stated fails: the wrapper raises on the row whose anchor scan is
    missing, and the fraction ends with that error although the two other
    rows could be integrated. *)
Lemma lost_anchor_ends_fraction :
  peaks_task 1 Scenario.one_lost [0; 1] Scenario.three_scans 1
             (100 # 1000000) false = inl Py.TypeError
  /\ Py.is_ok (peaks_task 0 Scenario.one_lost [0; 1] Scenario.three_scans 1
                          (100 # 1000000) false) = true
  /\ Py.is_ok (peaks_task 2 Scenario.one_lost [0; 1] Scenario.three_scans 1
                          (100 # 1000000) false) = true
  /\ Riana.fraction spectra peaks_task 4 Scenario.interleaved
       Scenario.one_lost [0; 1] Scenario.three_scans 1 (100 # 1000000) false
       "f01.mzML" = Some (inl Py.TypeError).
Proof.
  repeat split; vm_compute; reflexivity.
Qed.

(** A fraction without match rows: [max(range(0))] raises before any
    result is read. *)
Remark fraction_without_rows (num_threads : Z) :
  0 < num_threads ->
  Riana.fraction spectra peaks_task num_threads [] [] [0; 1]
                 Scenario.three_scans 1 (100 # 1000000) false "f01.mzML"
  = Some (inl Py.ValueError).
Proof.
  intros H. unfold Riana.fraction.
  destruct (num_threads <=? 0) eqn:E; [apply Z.leb_le in E; lia|].
  reflexivity.
Qed.

(** Two match rows with the same peptide id: the left join on [pep_id]
    pairs each of them with both result rows. *)
Remark fraction_repeated_peptide_id :
  option_map (fun out => match out with
                         | inr tbl => Some (length tbl)
                         | inl _ => None
                         end)
    (Riana.fraction spectra peaks_task 4 (Futures.sequential 2)
       [Scenario.match_row "pepA" 2; Scenario.match_row "pepA" 2] [0; 1]
       Scenario.three_scans 1 (100 # 1000000) false "f01.mzML")
  = Some (Some 4%nat).
Proof.
  vm_compute. reflexivity.
Qed.

(** *** The theorems at explicit inputs *)

Lemma target_mz_of_isotopomer_witness :
  (1 <= 2)%Q
  /\ Peaks.peptide_prec 1000 2 = inr ((1000 + 2 * Peaks.proton) / 2)%Q.
Proof.
  assert (H : (1 <= 2)%Q) by (unfold Qle; simpl; lia).
  split; [exact H|]. exact (proj1 (target_mz_of_isotopomer 1000 2 H)).
Defined.

Lemma iso_area_cases_witness :
  (Peaks.iso_area [(9.5, 100); (10, 200)] == 75)%Q
  /\ (Peaks.iso_area [(10.5, 100); (9.5, 100)] == 0)%Q.
Proof.
  destruct iso_area_cases as (_ & _ & _ & Htwo & Hneg & _). split.
  - rewrite Htwo.
    + reflexivity.
    + unfold Qlt; simpl; lia.
    + unfold Qle; simpl; lia.
    + unfold Qle; simpl; lia.
  - apply Hneg. vm_compute. reflexivity.
Defined.

Lemma matching_int_strict_window_witness :
  (Peaks.matching_int 501.1 500.9 [(500.9, 50); (501, 100); (501.1, 70)]
   == Peaks.matching_int 501.1 500.9 [(501, 100); (501.1, 70)])%Q
  /\ (Peaks.matching_int 501.1 500.9 [(500.9, 50); (501.1, 70)] == 0)%Q.
Proof.
  split.
  - apply (proj1 (proj2 (matching_int_strict_window 501.1 500.9 []))
             500.9%Q 50%Q [] [(501, 100); (501.1, 70)]%Q).
    left. reflexivity.
  - apply (proj2 (proj2 (matching_int_strict_window
                           501.1 500.9 [(500.9, 50); (501.1, 70)]%Q))).
    intros mz inten [H|[H|[]]]; inversion H; subst; intros [H1 H2].
    + revert H1. unfold Qlt; simpl; lia.
    + revert H2. unfold Qlt; simpl; lia.
Defined.

Lemma iso_request_resolution_witness :
  (exists l, Riana.iso_to_do "0,0,20,6" = inr l /\ StronglySorted Z.lt l)
  /\ Riana.iso_to_do "20,abc"
     = inl (Py.SystemExit "Error: Invalid isotopomer list given.").
Proof.
  split.
  - destruct (proj1 (iso_request_resolution "0,0,20,6")) as (l & Hl & HS & _).
    + exists "6"%string, 6. split; [simpl; tauto|].
      split; [reflexivity|lia].
    + exists l. split; assumption.
  - apply (proj1 (proj2 (iso_request_resolution "20,abc"))).
    intros tok n Hin Hp. vm_compute in Hin.
    destruct Hin as [<-|[<-|[]]]; vm_compute in Hp.
    + inversion Hp. lia.
    + discriminate Hp.
Defined.

Lemma negative_shift_accepted_witness :
  exists l, Riana.iso_to_do "0,-1,6" = inr l /\ In (-1) l.
Proof.
  destruct (proj1 (negative_shift_accepted "0,-1,6" "-1" (-1)
                     ltac:(simpl; tauto) ltac:(reflexivity) ltac:(lia)))
    as (l & Hl & Hin & _).
  exists l. split; assumption.
Defined.

Lemma pool_size_witness :
  1 <= 2 /\ exists n, Riana.num_threads 2 (Py.VInt 64) = inr n /\ 2 * 4 <= n.
Proof.
  assert (H : 1 <= 2) by lia. split; [exact H|].
  destruct (proj1 (pool_size 2 (Py.VInt 64) H)) as (n & Hn & Hle & _).
  exists n. split; assumption.
Defined.

Lemma profile_in_index_order_witness :
  Sorted Qle (map snd (sp_rt_idx Scenario.three_scans))
  /\ exists iot,
       Peaks.get_isotopes_from_amrt
         (Scenario.peaks_over Scenario.three_scans [Scenario.match_row "pepA" 2])
         1000 2 2 = inr iot
       /\ Sorted Qle (map fst (Peaks.isotopomer_profile iot 0)).
Proof.
  assert (HS : Sorted Qle (map snd (sp_rt_idx Scenario.three_scans))).
  { simpl. repeat constructor; unfold Qle; simpl; lia. }
  split; [exact HS|].
  destruct (Peaks.get_isotopes_from_amrt
              (Scenario.peaks_over Scenario.three_scans
                                   [Scenario.match_row "pepA" 2])
              1000 2 2) as [e|iot] eqn:E.
  - vm_compute in E. discriminate E.
  - exists iot. split; [reflexivity|].
    exact (proj2 (profile_in_index_order _ _ _ _ _ 0 E) HS).
Defined.


Lemma missing_anchor_not_caught_witness :
  Peaks.get_isotopes_from_amrt_wrapper
    (Scenario.peaks_over Scenario.three_scans Scenario.one_lost) 1
  = inl Py.TypeError.
Proof.
  apply (proj1 missing_anchor_not_caught
           (Scenario.peaks_over Scenario.three_scans Scenario.one_lost) 1%nat
           (Scenario.match_row "pepB" 99)).
  - reflexivity.
  - reflexivity.
  - discriminate.
Defined.

(* ================================================================== *)
(** ** Further properties of [integrate_peaks.py] *)
(* ================================================================== *)

From Stdlib Require Import Lqa.

Section MorePeaks.
Import Py Peaks.
Local Open Scope Q_scope.

(** *** Which scans are read, and what can go wrong *)

Lemma selected_split (self : Peaks.t) prt x :
  selected self prt x
  = within self prt x
    && match dict_get (mslvl_idx self) (fst x) with
       | Some lvl => (lvl =? 1)%Z
       | None => false
       end.
Proof. reflexivity. Qed.

Lemma selected_iff (self : Peaks.t) prt i rt :
  selected self prt (i, rt) = true
  <-> Qabs (rt - prt) <= rt_tolerance self
      /\ dict_get (mslvl_idx self) i = Some 1%Z.
Proof.
  unfold selected. cbn [fst snd]. rewrite andb_true_iff, Qle_bool_iff.
  destruct (dict_get (mslvl_idx self) i) as [lvl|].
  - rewrite Z.eqb_eq. split; intros [H1 H2]; split; congruence.
  - split; intros [_ H]; discriminate.
Qed.

Lemma nearby_scans_within (self : Peaks.t) prt items :
  (forall x, In x items -> within self prt x = true ->
             dict_get (mslvl_idx self) (fst x) <> None) ->
  nearby_scans self (Some prt) items = inr (filter (selected self prt) items).
Proof.
  induction items as [|[i rt] items IH]; intros Hin; [reflexivity|].
  assert (IH' := IH (fun x Hx => Hin x (or_intror Hx))).
  cbn [nearby_scans filter]. rewrite selected_split.
  specialize (Hin (i, rt) (or_introl eq_refl)). unfold within in *.
  cbn [fst snd] in *.
  destruct (Qle_bool (Qabs (rt - prt)) (rt_tolerance self)).
  - unfold dict_getitem.
    destruct (dict_get (mslvl_idx self) i) as [lvl|];
      [|exfalso; apply Hin; reflexivity].
    cbn [bind ret]. rewrite IH'. cbn [bind ret andb].
    destruct (lvl =? 1)%Z; reflexivity.
  - exact IH'.
Qed.

Lemma nearby_scans_KeyError (self : Peaks.t) prt items :
  (exists x, In x items /\ within self prt x = true
             /\ dict_get (mslvl_idx self) (fst x) = None) ->
  nearby_scans self (Some prt) items = inl KeyError.
Proof.
  induction items as [|[i rt] items IH]; intros (x & Hx & Hw & Hl);
    [destruct Hx|].
  cbn [nearby_scans].
  destruct (Qle_bool (Qabs (rt - prt)) (rt_tolerance self)) eqn:E.
  - unfold dict_getitem.
    destruct (dict_get (mslvl_idx self) i) as [lvl|] eqn:El; [|reflexivity].
    cbn [bind ret]. rewrite IH; [reflexivity|].
    destruct Hx as [<-|Hx]; [cbn [fst] in Hl; congruence|].
    exists x. auto.
  - apply IH. destruct Hx as [<-|Hx].
    + unfold within in Hw. cbn [snd] in Hw. congruence.
    + exists x. auto.
Qed.

Lemma scan_isotopes_TypeError (self : Peaks.t) prec z i rt isos :
  isos <> [] -> dict_get (msdata self) i = None ->
  scan_isotopes self prec z i rt isos = inl TypeError.
Proof.
  intros Hne Hi. destruct isos as [|iso isos]; [congruence|].
  cbn [scan_isotopes]. rewrite Hi. reflexivity.
Qed.

Lemma scan_loop_TypeError (self : Peaks.t) prec z scans :
  iso_to_do self <> [] ->
  (exists x, In x scans /\ dict_get (msdata self) (fst x) = None) ->
  scan_loop self prec z scans = inl TypeError.
Proof.
  intros Hne. induction scans as [|[i rt] scans IH]; intros (x & Hx & Hm);
    [destruct Hx|].
  cbn [scan_loop].
  destruct (dict_get (msdata self) i) as [peaks|] eqn:E.
  - rewrite scan_isotopes_total by congruence. cbn [bind ret].
    rewrite IH; [reflexivity|].
    destruct Hx as [<-|Hx]; [cbn [fst] in Hm; congruence|]. exists x. auto.
  - rewrite scan_isotopes_TypeError by assumption. reflexivity.
Qed.

Lemma scan_loop_no_isos (self : Peaks.t) prec z scans :
  iso_to_do self = [] -> scan_loop self prec z scans = inr [].
Proof.
  intros Hnil. induction scans as [|[i rt] scans IH]; [reflexivity|].
  cbn [scan_loop]. rewrite Hnil. cbn [scan_isotopes bind ret].
  rewrite IH. reflexivity.
Qed.

(** X1. What [get_isotopes_from_amrt] raises, in the order the code reaches
    it: a zero charge raises [ZeroDivisionError] before any scan is looked
    at; then a scan inside the retention-time window without MS level
    raises [KeyError], also when peak lists are missing; then, if
    isotopomers are requested, a selected scan without peak list raises
    [TypeError]; with none of these the function returns. *)
Theorem get_isotopes_from_amrt_errors (self : Peaks.t) (am : Q) (sc : Z) (z : Q) :
  (Qeq_bool z 0 = true ->
   get_isotopes_from_amrt self am sc z = inl ZeroDivisionError)
  /\ (forall prt,
        Qeq_bool z 0 = false ->
        dict_get (rt_idx self) sc = Some prt ->
        ((exists x, In x (rt_idx self) /\ within self prt x = true
                    /\ dict_get (mslvl_idx self) (fst x) = None) ->
         get_isotopes_from_amrt self am sc z = inl KeyError)
        /\ ((forall x, In x (rt_idx self) -> within self prt x = true ->
                       dict_get (mslvl_idx self) (fst x) <> None) ->
            iso_to_do self <> [] ->
            (exists x, In x (filter (selected self prt) (rt_idx self))
                       /\ dict_get (msdata self) (fst x) = None) ->
            get_isotopes_from_amrt self am sc z = inl TypeError)
        /\ ((forall x, In x (rt_idx self) -> within self prt x = true ->
                       dict_get (mslvl_idx self) (fst x) <> None) ->
            (iso_to_do self = []
             \/ forall x, In x (filter (selected self prt) (rt_idx self)) ->
                          dict_get (msdata self) (fst x) <> None) ->
            exists iot, get_isotopes_from_amrt self am sc z = inr iot)).
Proof.
  split.
  - intros Hz. unfold get_isotopes_from_amrt, peptide_prec. rewrite Hz.
    reflexivity.
  - intros prt Hz Hsc. unfold get_isotopes_from_amrt, peptide_prec.
    rewrite Hz, Hsc. cbn [bind ret]. split; [|split].
    + intros Hex. rewrite nearby_scans_KeyError by exact Hex. reflexivity.
    + intros Hlvl Hne Hex. rewrite nearby_scans_within by exact Hlvl.
      cbn [bind]. apply scan_loop_TypeError; assumption.
    + intros Hlvl Hdata. rewrite nearby_scans_within by exact Hlvl.
      cbn [bind]. destruct Hdata as [Hnil|Hdata].
      * eexists. apply scan_loop_no_isos. exact Hnil.
      * eexists. apply scan_loop_total. exact Hdata.
Qed.

End MorePeaks.

Section MoreSamples.
Import Py Peaks.
Local Open Scope Q_scope.

(** X2. On success there is one entry per selected scan and requested
    isotopomer: the entries number the selected scans times the requested
    isotopomers, and their isotopomer numbers repeat the request once per
    selected scan, scan after scan. *)
Theorem get_isotopes_from_amrt_shape (self : Peaks.t) (am : Q) (sc : Z) (z prt : Q)
        (iot : list sample) :
  dict_get (rt_idx self) sc = Some prt ->
  get_isotopes_from_amrt self am sc z = inr iot ->
  length iot
  = (length (filter (selected self prt) (rt_idx self))
     * length (iso_to_do self))%nat
  /\ map s_iso iot
     = flat_map (fun _ => iso_to_do self)
                (filter (selected self prt) (rt_idx self))
  /\ map s_rt iot
     = flat_map (fun x => repeat (snd x) (length (iso_to_do self)))
                (filter (selected self prt) (rt_idx self)).
Proof.
  intros Hsc H. apply get_isotopes_from_amrt_inr in H.
  destruct H as (_ & scans & -> & Hscans). rewrite Hsc in Hscans. subst scans.
  generalize (filter (selected self prt) (rt_idx self)) as scans.
  intros scans. split; [|split].
  - induction scans as [|x scans IH]; [reflexivity|].
    cbn [flat_map]. rewrite length_app, length_map, IH. reflexivity.
  - induction scans as [|x scans IH]; [reflexivity|].
    cbn [flat_map]. rewrite map_app, IH, map_map. f_equal.
    unfold entry. cbn [s_iso]. apply map_id.
  - induction scans as [|x scans IH]; [reflexivity|].
    cbn [flat_map]. rewrite map_app, IH, map_map. f_equal.
    unfold entry. cbn [s_rt].
    generalize (iso_to_do self) as isos.
    induction isos as [|iso isos IHi]; [reflexivity|].
    cbn [map length repeat]. rewrite IHi. reflexivity.
Qed.

(** X3. Only MS1 scans inside the retention-time window are read, and all
    of them are: an entry is returned exactly for the scans of the index
    with MS level 1 whose retention time is within the tolerance of the
    anchor's, once per requested isotopomer, with the target and the summed
    intensity of that scan and isotopomer. *)
Theorem get_isotopes_from_amrt_selection (self : Peaks.t) (am : Q) (sc : Z)
        (z prt : Q) (iot : list sample) (s : sample) :
  dict_get (rt_idx self) sc = Some prt ->
  get_isotopes_from_amrt self am sc z = inr iot ->
  (In s iot
   <-> exists i rt iso,
         In (i, rt) (rt_idx self)
         /\ Qabs (rt - prt) <= rt_tolerance self
         /\ dict_get (mslvl_idx self) i = Some 1%Z
         /\ In iso (iso_to_do self)
         /\ s = entry self ((am + z * proton) / z) z i rt iso).
Proof.
  intros Hsc H. apply get_isotopes_from_amrt_inr in H.
  destruct H as (_ & scans & -> & Hscans). rewrite Hsc in Hscans. subst scans.
  rewrite in_flat_map. split.
  - intros ([i rt] & Hx & Hs). apply filter_In in Hx. destruct Hx as [Hx Hsel].
    apply selected_iff in Hsel. destruct Hsel as [Hw Hl].
    apply in_map_iff in Hs. destruct Hs as (iso & <- & Hiso).
    exists i, rt, iso. auto.
  - intros (i & rt & iso & Hx & Hw & Hl & Hiso & ->).
    exists (i, rt). split.
    + apply filter_In. split; [exact Hx|]. apply selected_iff. auto.
    + apply in_map. exact Hiso.
Qed.

Lemma nearby_scans_negative_tolerance (self : Peaks.t) prt items :
  rt_tolerance self < 0 -> nearby_scans self (Some prt) items = inr [].
Proof.
  intros Hneg. induction items as [|[i rt] items IH]; [reflexivity|].
  cbn [nearby_scans].
  destruct (Qle_bool (Qabs (rt - prt)) (rt_tolerance self)) eqn:E;
    [|exact IH].
  apply Qle_bool_iff in E. exfalso.
  apply (Qlt_not_le _ _ Hneg). eapply Qle_trans; [apply Qabs_nonneg|exact E].
Qed.

(** X4. With a negative retention-time tolerance no scan is selected, not
    even the anchor scan: whatever the MS levels and peak lists are, the
    entry list is empty and the wrapper returns area 0 for every requested
    isotopomer. *)
Theorem negative_rt_tolerance_reads_nothing (self : Peaks.t) (index : nat)
        (r : id_row) (prt : Q) :
  rt_tolerance self < 0 ->
  nth_error (Peaks.id self) index = Some r ->
  Qeq_bool (charge r) 0 = false ->
  dict_get (rt_idx self) (scan r) = Some prt ->
  get_isotopes_from_amrt self (peptide_mass r) (scan r) (charge r) = inr []
  /\ get_isotopes_from_amrt_wrapper self index
     = inr (set_intensity_over_time self [],
            {| r_index := index; r_pep_id := pep_id r;
               r_areas := map (fun _ => 0) (iso_to_do self) |}).
Proof.
  intros Hneg Hr Hz Hsc.
  assert (Hget : get_isotopes_from_amrt self (peptide_mass r) (scan r)
                                       (charge r) = inr []).
  { unfold get_isotopes_from_amrt, peptide_prec. rewrite Hz, Hsc.
    cbn [bind ret]. rewrite nearby_scans_negative_tolerance by exact Hneg.
    reflexivity. }
  split; [exact Hget|].
  unfold get_isotopes_from_amrt_wrapper, loc. rewrite Hr. cbn [bind ret].
  rewrite Hget. reflexivity.
Qed.

End MoreSamples.

Section MoreIntegration.
Import Py Peaks.
Local Open Scope Q_scope.

(** *** The trapezoid sum and the clamp *)

Lemma trap_cons2 (a b : Q * Q) (rest : list (Q * Q)) :
  trap (a :: b :: rest)
  = (fst b - fst a) * (snd b + snd a) / 2 + trap (b :: rest).
Proof. reflexivity. Qed.

Lemma trapz_trap (profile : list (Q * Q)) :
  trapz (map snd profile) (map fst profile) == trap profile.
Proof.
  unfold trapz.
  induction profile as [|a profile IH]; [reflexivity|].
  destruct profile as [|b profile]; [reflexivity|].
  change (map fst (a :: b :: profile))
    with (fst a :: map fst (b :: profile)).
  change (map snd (a :: b :: profile))
    with (snd a :: map snd (b :: profile)).
  change (tl (snd a :: map snd (b :: profile))) with (map snd (b :: profile)).
  change (removelast (snd a :: map snd (b :: profile)))
    with (snd a :: removelast (map snd (b :: profile))).
  change (diff (fst a :: map fst (b :: profile)))
    with ((fst b - fst a) :: diff (map fst (b :: profile))).
  change (map snd (b :: profile)) with (snd b :: map snd profile) at 1.
  cbn [zip_with]. rewrite sum_cons.
  change (map snd profile) with (tl (map snd (b :: profile))).
  rewrite IH. reflexivity.
Qed.

Lemma trap_nonneg (profile : list (Q * Q)) :
  StronglySorted Qle (map fst profile) ->
  Forall (fun p => 0 <= snd p) profile ->
  0 <= trap profile.
Proof.
  induction profile as [|a profile IH]; intros HS Hpos; [apply Qle_refl|].
  destruct profile as [|b profile]; [apply Qle_refl|].
  rewrite trap_cons2. inversion HS as [|? ? HS' Hall]; subst.
  inversion Hpos as [|? ? Ha Hpos']; subst.
  inversion Hall as [|? ? Hab _]; subst.
  inversion Hpos' as [|? ? Hb _]; subst.
  rewrite <- (Qplus_0_l 0). apply Qplus_le_compat; [|apply IH; assumption].
  unfold Qdiv. apply Qmult_le_0_compat; [|discriminate].
  apply Qmult_le_0_compat.
  - unfold Qminus. rewrite <- Qle_minus_iff. exact Hab.
  - rewrite <- (Qplus_0_l 0). apply Qplus_le_compat; assumption.
Qed.

Lemma trap_nonpos (profile : list (Q * Q)) :
  StronglySorted (fun a b => b <= a) (map fst profile) ->
  Forall (fun p => 0 <= snd p) profile ->
  trap profile <= 0.
Proof.
  induction profile as [|a profile IH]; intros HS Hpos; [apply Qle_refl|].
  destruct profile as [|b profile]; [apply Qle_refl|].
  rewrite trap_cons2. inversion HS as [|? ? HS' Hall]; subst.
  inversion Hpos as [|? ? Ha Hpos']; subst.
  inversion Hall as [|? ? Hab _]; subst.
  inversion Hpos' as [|? ? Hb _]; subst.
  specialize (IH HS' Hpos').
  assert (Hprod : 0 <= (fst a - fst b) * (snd b + snd a)).
  { apply Qmult_le_0_compat.
    - unfold Qminus. rewrite <- Qle_minus_iff. exact Hab.
    - rewrite <- (Qplus_0_l 0). apply Qplus_le_compat; assumption. }
  assert (Hhalf : 0 <= (fst a - fst b) * (snd b + snd a) / 2).
  { unfold Qdiv. apply Qmult_le_0_compat; [exact Hprod|discriminate]. }
  setoid_replace ((fst b - fst a) * (snd b + snd a) / 2)
    with (- ((fst a - fst b) * (snd b + snd a) / 2)) by field.
  apply Qopp_le_compat in Hhalf.
  rewrite <- (Qplus_0_l 0). apply Qplus_le_compat; [exact Hhalf|exact IH].
Qed.

Lemma iso_area_trap (profile : list (Q * Q)) :
  iso_area profile == max2 (trap profile) 0.
Proof.
  destruct profile as [|a profile]; [reflexivity|].
  unfold iso_area. apply max2_Qeq. apply trapz_trap.
Qed.

Lemma max2_of_nonneg (a : Q) : 0 <= a -> max2 a 0 == a.
Proof.
  intros H. unfold max2. destruct (Qlt_bool a 0) eqn:E; [|reflexivity].
  apply Qlt_bool_iff in E. exfalso. exact (Qlt_not_le _ _ E H).
Qed.

Lemma max2_of_nonpos (a : Q) : a <= 0 -> max2 a 0 == 0.
Proof.
  intros H. unfold max2. destruct (Qlt_bool a 0) eqn:E; [reflexivity|].
  apply Qlt_bool_false_iff in E. apply Qle_antisym; assumption.
Qed.

Lemma dict_get_In {V} (d : list (Z * V)) (k : Z) (v : V) :
  dict_get d k = Some v -> In (k, v) d.
Proof.
  induction d as [|[k' v'] d IH]; cbn [dict_get]; [discriminate|].
  destruct (Z.eqb k' k) eqn:E.
  - intros H. inversion H; subst. apply Z.eqb_eq in E. subst. left.
    reflexivity.
  - intros H. right. apply IH. exact H.
Qed.

Lemma profile_intensities_nonneg (self : Peaks.t) prec z j scans :
  (forall i peaks, In (i, peaks) (msdata self) ->
                   Forall (fun p => 0 <= snd p) peaks) ->
  Forall (fun p => 0 <= snd p)
    (isotopomer_profile
       (flat_map (fun x => map (entry self prec z (fst x) (snd x))
                               (iso_to_do self)) scans) j).
Proof.
  intros Hpos. apply Forall_forall. intros p Hp.
  unfold isotopomer_profile in Hp. apply in_map_iff in Hp.
  destruct Hp as (s & <- & Hs). apply filter_In in Hs. destruct Hs as [Hs _].
  apply in_flat_map in Hs. destruct Hs as (x & _ & Hs).
  apply in_map_iff in Hs. destruct Hs as (iso & <- & _).
  unfold entry. cbn [snd s_int]. apply matching_int_nonneg.
  unfold peaks_of. destruct (dict_get (msdata self) (fst x)) as [peaks|] eqn:E.
  - apply (Hpos (fst x)). apply dict_get_In. exact E.
  - constructor.
Qed.

(** X5. On a spectral index listed in ascending retention time, with peak
    intensities that are not negative, the clamp changes nothing: the area
    of every isotopomer is its trapezoid sum, which is not negative. *)
Theorem sorted_index_needs_no_clamp (self : Peaks.t) (am : Q) (sc : Z) (z : Q)
        (iot : list sample) (j : Z) :
  Sorted Qle (map snd (rt_idx self)) ->
  (forall i peaks, In (i, peaks) (msdata self) ->
                   Forall (fun p => 0 <= snd p) peaks) ->
  get_isotopes_from_amrt self am sc z = inr iot ->
  0 <= trapz (map snd (isotopomer_profile iot j))
             (map fst (isotopomer_profile iot j))
  /\ iso_area (isotopomer_profile iot j)
     == trapz (map snd (isotopomer_profile iot j))
              (map fst (isotopomer_profile iot j)).
Proof.
  intros HS Hpos H. apply get_isotopes_from_amrt_inr in H.
  destruct H as (_ & scans & -> & Hscans).
  assert (Hsel : exists sel : Z * Q -> bool,
             scans = filter sel (rt_idx self)).
  { destruct (dict_get (rt_idx self) sc) as [prt|].
    - exists (selected self prt). exact Hscans.
    - destruct Hscans as [-> ->]. exists (fun _ => true). reflexivity. }
  destruct Hsel as (sel & ->).
  assert (Hnn : 0 <= trap (isotopomer_profile
                             (flat_map
                                (fun x => map (entry self ((am + z * proton) / z)
                                                     z (fst x) (snd x))
                                              (iso_to_do self))
                                (filter sel (rt_idx self))) j)).
  { apply trap_nonneg.
    - rewrite profile_of_entries. apply profile_times_sorted.
      apply Sorted_StronglySorted; [exact Qle_trans | exact HS].
    - apply profile_intensities_nonneg. exact Hpos. }
  split.
  - rewrite trapz_trap. exact Hnn.
  - rewrite iso_area_trap, trapz_trap. apply max2_of_nonneg. exact Hnn.
Qed.

(** X6. A profile in descending retention time whose intensities are not
    negative gets area 0, whatever was measured: its trapezoid sum is not
    positive, and the clamp replaces it by 0. *)
Theorem descending_profile_area_zero (profile : list (Q * Q)) :
  Sorted (fun a b => b <= a) (map fst profile) ->
  Forall (fun p => 0 <= snd p) profile ->
  iso_area profile == 0.
Proof.
  intros HS Hpos. rewrite iso_area_trap. apply max2_of_nonpos.
  apply trap_nonpos; [|exact Hpos].
  apply Sorted_StronglySorted; [|exact HS].
  intros x y z Hxy Hyz. exact (Qle_trans _ _ _ Hyz Hxy).
Qed.

End MoreIntegration.

Section MoreMatching.
Import Py Peaks.
Local Open Scope Q_scope.

(** *** The summed intensity as a function of window and peak list *)

Lemma Qmult_le_compat_l_nonneg (a x y : Q) :
  0 <= a -> x <= y -> a * x <= a * y.
Proof.
  intros Ha Hxy. rewrite (Qmult_comm a x), (Qmult_comm a y).
  apply Qmult_le_compat_r; assumption.
Qed.

Lemma matching_empty_window (up lo : Q) (peaks : list (Q * Q)) :
  up <= lo -> matching up lo peaks = [].
Proof.
  intros Hle. induction peaks as [|[mz inten] peaks IH]; [reflexivity|].
  cbn [matching].
  destruct (Qlt_bool mz up && Qlt_bool lo mz) eqn:E; [|exact IH].
  apply window_test_iff in E. destruct E as [E1 E2]. exfalso.
  apply (Qlt_not_le lo up); [|exact Hle].
  eapply Qlt_trans; eassumption.
Qed.

(** X7. A mass tolerance of zero or below leaves no room between the
    bounds of a target that is not negative: no peak matches and the summed
    intensity is 0 for every peak list. *)
Theorem nonpositive_mass_tolerance_matches_nothing
        (am tol : Q) (peaks : list (Q * Q)) :
  0 <= am -> tol <= 0 ->
  upper am tol <= lower am tol
  /\ matching (upper am tol) (lower am tol) peaks = []
  /\ matching_int (upper am tol) (lower am tol) peaks == 0.
Proof.
  intros Ham Htol.
  assert (Hle : upper am tol <= lower am tol).
  { unfold upper, lower.
    assert (H : am * (tol / 2) <= 0).
    { rewrite <- (Qmult_0_r am). apply Qmult_le_compat_l_nonneg; [exact Ham|].
      unfold Qdiv. rewrite <- (Qmult_0_l (/ 2)).
      apply Qmult_le_compat_r; [exact Htol|discriminate]. }
    lra. }
  split; [exact Hle|]. split.
  - apply matching_empty_window. exact Hle.
  - unfold matching_int. rewrite matching_empty_window by exact Hle.
    reflexivity.
Qed.

Lemma matching_int_cons (up lo mz inten : Q) (peaks : list (Q * Q)) :
  matching_int up lo ((mz, inten) :: peaks)
  == (if Qlt_bool mz up && Qlt_bool lo mz then inten else 0)
     + matching_int up lo peaks.
Proof.
  unfold matching_int. cbn [matching].
  destruct (Qlt_bool mz up && Qlt_bool lo mz).
  - apply sum_cons.
  - ring.
Qed.

(** X8. Widening the window never loses signal: for intensities that are
    not negative, a window that contains another gives a summed intensity
    at least as large; in particular a larger mass tolerance around the
    same non-negative target does. *)
Theorem wider_window_sums_more (peaks : list (Q * Q)) :
  Forall (fun p => 0 <= snd p) peaks ->
  (forall up lo up' lo',
      lo' <= lo -> up <= up' ->
      matching_int up lo peaks <= matching_int up' lo' peaks)
  /\ (forall am tol tol',
        0 <= am -> tol <= tol' ->
        matching_int (upper am tol) (lower am tol) peaks
        <= matching_int (upper am tol') (lower am tol') peaks).
Proof.
  intros Hpos.
  assert (Hmono : forall up lo up' lo',
             lo' <= lo -> up <= up' ->
             matching_int up lo peaks <= matching_int up' lo' peaks).
  { intros up lo up' lo' Hlo Hup.
    induction Hpos as [|[mz inten] peaks Hp _ IH].
    - apply Qle_refl.
    - rewrite !matching_int_cons. apply Qplus_le_compat; [|exact IH].
      cbn [snd] in Hp.
      destruct (Qlt_bool mz up && Qlt_bool lo mz) eqn:E.
      + apply window_test_iff in E. destruct E as [E1 E2].
        assert (E' : Qlt_bool mz up' && Qlt_bool lo' mz = true).
        { apply window_test_iff. split.
          - eapply Qle_lt_trans; eassumption.
          - eapply Qlt_le_trans; eassumption. }
        rewrite E'. apply Qle_refl.
      + destruct (Qlt_bool mz up' && Qlt_bool lo' mz);
          [exact Hp|apply Qle_refl]. }
  split; [exact Hmono|].
  intros am tol tol' Ham Htol.
  assert (H : am * (tol / 2) <= am * (tol' / 2)).
  { apply Qmult_le_compat_l_nonneg; [exact Ham|]. unfold Qdiv.
    apply Qmult_le_compat_r; [exact Htol|discriminate]. }
  apply Hmono; unfold upper, lower; lra.
Qed.

End MoreMatching.


Section MoreWrapper.
Import Py Peaks.
Local Open Scope Q_scope.

(** *** The wrapper and the attribute it writes *)

Lemma nearby_scans_set (self : Peaks.t) junk prt items :
  nearby_scans (set_intensity_over_time self junk) prt items
  = nearby_scans self prt items.
Proof.
  induction items as [|[i rt] items IH]; [reflexivity|].
  cbn [nearby_scans]. rewrite IH. reflexivity.
Qed.

Lemma scan_isotopes_set (self : Peaks.t) junk prec z i rt isos :
  scan_isotopes (set_intensity_over_time self junk) prec z i rt isos
  = scan_isotopes self prec z i rt isos.
Proof.
  induction isos as [|iso isos IH]; [reflexivity|].
  cbn [scan_isotopes]. rewrite IH. reflexivity.
Qed.

Lemma scan_loop_set (self : Peaks.t) junk prec z scans :
  scan_loop (set_intensity_over_time self junk) prec z scans
  = scan_loop self prec z scans.
Proof.
  induction scans as [|[i rt] scans IH]; [reflexivity|].
  cbn [scan_loop]. rewrite IH, scan_isotopes_set. reflexivity.
Qed.

Lemma get_isotopes_from_amrt_set (self : Peaks.t) junk am sc z :
  get_isotopes_from_amrt (set_intensity_over_time self junk) am sc z
  = get_isotopes_from_amrt self am sc z.
Proof.
  unfold get_isotopes_from_amrt. rewrite nearby_scans_set.
  destruct (peptide_prec am z) as [e|prec]; [reflexivity|]. cbn [bind].
  destruct (nearby_scans self _ _) as [e|scans]; [reflexivity|]. cbn [bind].
  apply scan_loop_set.
Qed.

Lemma wrapper_set (self : Peaks.t) junk index :
  get_isotopes_from_amrt_wrapper (set_intensity_over_time self junk) index
  = get_isotopes_from_amrt_wrapper self index.
Proof.
  unfold get_isotopes_from_amrt_wrapper, loc.
  change (Peaks.id (set_intensity_over_time self junk)) with (Peaks.id self).
  destruct (nth_error (Peaks.id self) index) as [r|]; [|reflexivity].
  cbn [bind ret]. rewrite get_isotopes_from_amrt_set. reflexivity.
Qed.

Lemma wrapper_reads_no_stale_state_aux (self : Peaks.t) index self' row :
  get_isotopes_from_amrt_wrapper self index = inr (self', row) ->
  self' = set_intensity_over_time self (intensity_over_time self').
Proof.
  unfold get_isotopes_from_amrt_wrapper, loc. intros H.
  destruct (nth_error (Peaks.id self) index) as [r|]; [|discriminate].
  cbn [bind ret] in H.
  destruct (get_isotopes_from_amrt self _ _ _) as [e|iot]; [discriminate|].
  cbn [bind ret] in H. inversion H; subst. reflexivity.
Qed.

(** X10. The wrapper reads nothing of what an earlier call left in
    [intensity_over_time]: with any other content there it returns the same
    object and row.  The row it returns carries the index and the peptide
    id of the match row, the object afterwards holds the entries just
    computed and is otherwise unchanged, and calling the wrapper again
    changes nothing.  An index past the end of the table raises
    [KeyError]. *)
Theorem wrapper_reads_no_stale_state (self : Peaks.t) (index : nat) :
  ((length (Peaks.id self) <= index)%nat ->
   get_isotopes_from_amrt_wrapper self index = inl KeyError)
  /\ (forall junk,
        get_isotopes_from_amrt_wrapper (set_intensity_over_time self junk) index
        = get_isotopes_from_amrt_wrapper self index)
  /\ (forall self' row,
        get_isotopes_from_amrt_wrapper self index = inr (self', row) ->
        r_index row = index
        /\ (exists r,
               nth_error (Peaks.id self) index = Some r
               /\ r_pep_id row = pep_id r
               /\ get_isotopes_from_amrt self (peptide_mass r) (scan r)
                                         (charge r)
                  = inr (intensity_over_time self'))
        /\ self' = set_intensity_over_time self (intensity_over_time self')
        /\ get_isotopes_from_amrt_wrapper self' index = inr (self', row)).
Proof.
  split; [|split].
  - intros Hlen. unfold get_isotopes_from_amrt_wrapper, loc.
    apply nth_error_None in Hlen. rewrite Hlen. reflexivity.
  - intros junk. apply wrapper_set.
  - intros self' row H.
    assert (Hagain := H).
    unfold get_isotopes_from_amrt_wrapper, loc in H.
    destruct (nth_error (Peaks.id self) index) as [r|] eqn:Er;
      [|discriminate].
    cbn [bind ret] in H.
    destruct (get_isotopes_from_amrt self (peptide_mass r) (scan r) (charge r))
      as [e|iot] eqn:Eg; [discriminate|].
    cbn [bind ret] in H. inversion H; subst; clear H.
    cbn [r_index r_pep_id]. split; [reflexivity|]. split; [|split].
    + exists r. split; [reflexivity|]. split; [reflexivity|]. exact Eg.
    + reflexivity.
    + rewrite wrapper_set. exact Hagain.
Qed.

End MoreWrapper.

Section MoreMultiwrapper.
Import Py Peaks.

(** *** The wrapper on a pool of processes *)

Lemma get_tasks_concat (fuel size : nat) (it : list nat) :
  (1 <= size)%nat -> (length it <= fuel)%nat ->
  concat (PeaksMulti.get_tasks fuel size it) = it.
Proof.
  intros Hsize. revert it.
  induction fuel as [|fuel IH]; intros it Hlen.
  - destruct it; [reflexivity|cbn [length] in Hlen; lia].
  - destruct it as [|x it]; [reflexivity|].
    cbn [PeaksMulti.get_tasks concat]. rewrite IH.
    + apply firstn_skipn.
    + rewrite length_skipn. cbn [length] in Hlen |- *. lia.
Qed.

Lemma collect_app (a b : list (result row)) :
  Riana.collect (a ++ b)
  = (x <- Riana.collect a ;; y <- Riana.collect b ;; ret (x ++ y)).
Proof.
  induction a as [|r a IH]; cbn [app Riana.collect bind ret].
  - destruct (Riana.collect b); reflexivity.
  - destruct r as [e|x]; [reflexivity|]. cbn [bind]. rewrite IH.
    destruct (Riana.collect a) as [e|xs]; [reflexivity|]. cbn [bind].
    destruct (Riana.collect b); reflexivity.
Qed.

Lemma mapstar_collect (self : Peaks.t) (batch : list nat) :
  PeaksMulti.mapstar self batch
  = Riana.collect (map (wrapper_row self) batch).
Proof.
  revert self. induction batch as [|i batch IH]; intros self; [reflexivity|].
  cbn [PeaksMulti.mapstar map Riana.collect]. unfold wrapper_row at 1.
  destruct (get_isotopes_from_amrt_wrapper self i) as [e|[self' row]] eqn:E;
    [reflexivity|].
  cbn [bind ret fst snd]. rewrite IH.
  assert (Hself : self' = set_intensity_over_time self (intensity_over_time self')).
  { apply (wrapper_reads_no_stale_state_aux self i self' row E). }
  replace (map (wrapper_row self') batch) with (map (wrapper_row self) batch);
    [reflexivity|].
  apply map_ext. intros j. unfold wrapper_row. rewrite Hself, wrapper_set.
  reflexivity.
Qed.

Lemma chain_collect (f : nat -> result row) (batches : list (list nat)) :
  PeaksMulti.chain (map (fun b => Riana.collect (map f b)) batches)
  = Riana.collect (map f (concat batches)).
Proof.
  induction batches as [|b batches IH]; [reflexivity|].
  cbn [map PeaksMulti.chain concat]. rewrite map_app, collect_app, IH.
  reflexivity.
Qed.

Lemma collect_first_error (rs : list (result row)) (i : nat) (e : exn) :
  nth_error rs i = Some (inl e) ->
  (forall j, (j < i)%nat -> exists x, nth_error rs j = Some (inr x)) ->
  Riana.collect rs = inl e.
Proof.
  revert i. induction rs as [|r rs IH]; intros [|i] Hi Hbefore;
    try discriminate.
  - inversion Hi. reflexivity.
  - cbn [Riana.collect].
    destruct (Hbefore O) as (x & Hx); [lia|]. inversion Hx; subst.
    cbn [bind]. rewrite (IH i); [reflexivity|exact Hi|].
    intros j Hj. apply (Hbefore (S j)). lia.
Qed.

Lemma collect_inr_nth (rs : list (result row)) (rows : list row) :
  Riana.collect rs = inr rows ->
  length rows = length rs
  /\ forall i row, nth_error rows i = Some row ->
                   nth_error rs i = Some (inr row).
Proof.
  revert rows. induction rs as [|r rs IH]; intros rows H.
  - inversion H. split; [reflexivity|]. intros [|i] row Hi; discriminate.
  - cbn [Riana.collect] in H. destruct r as [e|x]; [discriminate|].
    cbn [bind] in H. destruct (Riana.collect rs) as [e|xs]; [discriminate|].
    inversion H; subst. destruct (IH xs eq_refl) as [Hlen Hnth].
    split; [simpl; rewrite Hlen; reflexivity|].
    intros [|i] row Hi; simpl in Hi |- *.
    + inversion Hi. reflexivity.
    + apply Hnth. exact Hi.
Qed.

Lemma collect_all_ok (rs : list (result row)) :
  (forall i, (i < length rs)%nat -> exists x, nth_error rs i = Some (inr x)) ->
  exists rows, Riana.collect rs = inr rows.
Proof.
  induction rs as [|r rs IH]; intros Hall.
  - eexists. reflexivity.
  - destruct (Hall O) as (x & Hx); [simpl; lia|]. inversion Hx; subst.
    destruct IH as (rows & Hrows).
    + intros i Hi. apply (Hall (S i)). simpl. lia.
    + exists (x :: rows). cbn [Riana.collect bind]. rewrite Hrows.
      reflexivity.
Qed.

Lemma multiwrapper_collect (cpu_count : Z) (es : list Futures.event)
      (self : Peaks.t) (num_thread : Z) out :
  (cpu_count - 1 <= num_thread)%Z -> (1 <= num_thread)%Z ->
  PeaksMulti.get_isotopes_from_amrt_multiwrapper cpu_count es self num_thread
  = Some out ->
  out = Riana.collect
          (map (wrapper_row self) (seq 0 (length (Peaks.id self)))).
Proof.
  intros Hcpu Hone. unfold PeaksMulti.get_isotopes_from_amrt_multiwrapper.
  destruct (num_thread <? cpu_count - 1)%Z eqn:E1;
    [apply Z.ltb_lt in E1; lia|].
  destruct (num_thread <? 1)%Z eqn:E2; [apply Z.ltb_lt in E2; lia|].
  cbv zeta.
  destruct (Futures.map _ _ es _) as [batches|] eqn:Emap; [|discriminate].
  apply map_in_submission_order in Emap. subst batches.
  intros H. inversion H; subst; clear H.
  rewrite (map_ext _ (fun b => Riana.collect (map (wrapper_row self) b)))
    by (intros b; apply mapstar_collect).
  rewrite chain_collect, get_tasks_concat; [reflexivity|lia|lia].
Qed.

(** X11. The multiwrapper refuses a number of processes below the CPU
    count minus one with [AssertionError] (so its default of one process on
    a machine with three CPUs or more), and [Pool] refuses less than one
    process with [ValueError].  Past both checks, every complete execution
    of the pool returns the same thing whatever the number of processes and
    the interleaving: when the wrapper succeeds on every row, one row per
    match row, in the order of the table, each being what the wrapper
    returns for that index; and a complete execution exists. *)
Theorem multiwrapper_rows_in_order (cpu_count : Z) (self : Peaks.t)
        (num_thread : Z) :
  (forall es,
      (num_thread < cpu_count - 1)%Z ->
      PeaksMulti.get_isotopes_from_amrt_multiwrapper cpu_count es self num_thread
      = Some (inl AssertionError))
  /\ (forall es,
        (3 <= cpu_count)%Z ->
        PeaksMulti.get_isotopes_from_amrt_multiwrapper cpu_count es self 1
        = Some (inl AssertionError))
  /\ (forall es,
        (cpu_count - 1 <= num_thread)%Z -> (num_thread < 1)%Z ->
        PeaksMulti.get_isotopes_from_amrt_multiwrapper cpu_count es self
                                                       num_thread
        = Some (inl ValueError))
  /\ ((cpu_count - 1 <= num_thread)%Z -> (1 <= num_thread)%Z ->
      (forall es out rows,
          PeaksMulti.get_isotopes_from_amrt_multiwrapper cpu_count es self
                                                         num_thread
          = Some out ->
          out = inr rows ->
          length rows = length (Peaks.id self)
          /\ forall i row, nth_error rows i = Some row ->
                           wrapper_row self i = inr row)
      /\ (forall es out,
            PeaksMulti.get_isotopes_from_amrt_multiwrapper cpu_count es self
                                                           num_thread
            = Some out ->
            (forall i, (i < length (Peaks.id self))%nat ->
                       exists row, wrapper_row self i = inr row) ->
            exists rows, out = inr rows)
      /\ exists es out,
           PeaksMulti.get_isotopes_from_amrt_multiwrapper cpu_count es self
                                                          num_thread
           = Some out).
Proof.
  assert (Hassert : forall es n,
             (n < cpu_count - 1)%Z ->
             PeaksMulti.get_isotopes_from_amrt_multiwrapper cpu_count es self n
             = Some (inl AssertionError)).
  { intros es n H. unfold PeaksMulti.get_isotopes_from_amrt_multiwrapper.
    apply Z.ltb_lt in H. rewrite H. reflexivity. }
  split; [intros es; apply Hassert|].
  split; [intros es H; apply Hassert; lia|]. split.
  - intros es H1 H2. unfold PeaksMulti.get_isotopes_from_amrt_multiwrapper.
    apply Z.ltb_ge in H1. apply Z.ltb_lt in H2. rewrite H1, H2. reflexivity.
  - intros Hcpu Hone. split; [|split].
    + intros es out rows Hrun ->.
      apply multiwrapper_collect in Hrun; [|assumption|assumption].
      symmetry in Hrun. apply collect_inr_nth in Hrun.
      destruct Hrun as [Hlen Hnth]. rewrite length_map, length_seq in Hlen.
      split; [exact Hlen|]. intros i row Hi.
      specialize (Hnth i row Hi). rewrite nth_error_map, nth_error_seq in Hnth.
      destruct (Nat.ltb i (length (Peaks.id self))); [|discriminate].
      inversion Hnth. reflexivity.
    + intros es out Hrun Hok.
      apply multiwrapper_collect in Hrun; [|assumption|assumption].
      subst out. apply collect_all_ok.
      rewrite length_map, length_seq. intros i Hi.
      destruct (Hok i Hi) as (row & Hrow). exists row.
      rewrite nth_error_map, nth_error_seq.
      apply Nat.ltb_lt in Hi. rewrite Hi. cbn [option_map Nat.add]. rewrite Hrow.
      reflexivity.
    + unfold PeaksMulti.get_isotopes_from_amrt_multiwrapper.
      destruct (num_thread <? cpu_count - 1)%Z eqn:E1;
        [apply Z.ltb_lt in E1; lia|].
      destruct (num_thread <? 1)%Z eqn:E2; [apply Z.ltb_lt in E2; lia|].
      cbv zeta.
      set (batches := PeaksMulti.get_tasks _ 50 _).
      exists (Futures.sequential (length batches)).
      rewrite map_sequential by lia. eexists. reflexivity.
Qed.

(** X12. When the wrapper raises on some row, the multiwrapper raises the
    exception of the first such row in table order, for every number of
    processes and every interleaving of the pool: later rows, also ones
    that a worker finished earlier, do not change which error comes out. *)
Theorem multiwrapper_first_error (cpu_count : Z) (es : list Futures.event)
        (self : Peaks.t) (num_thread : Z) (i : nat) (e : exn)
        (out : result (list row)) :
  (cpu_count - 1 <= num_thread)%Z -> (1 <= num_thread)%Z ->
  (i < length (Peaks.id self))%nat ->
  wrapper_row self i = inl e ->
  (forall j, (j < i)%nat -> exists row, wrapper_row self j = inr row) ->
  PeaksMulti.get_isotopes_from_amrt_multiwrapper cpu_count es self num_thread
  = Some out ->
  out = inl e.
Proof.
  intros Hcpu Hone Hi He Hbefore Hrun.
  apply multiwrapper_collect in Hrun; [|assumption|assumption]. subst out.
  apply (collect_first_error _ i).
  - rewrite nth_error_map, nth_error_seq.
    apply Nat.ltb_lt in Hi. rewrite Hi. cbn [option_map Nat.add]. rewrite He.
    reflexivity.
  - intros j Hj. destruct (Hbefore j Hj) as (row & Hrow). exists row.
    rewrite nth_error_map, nth_error_seq.
    assert (Hlt : (j < length (Peaks.id self))%nat) by lia.
    apply Nat.ltb_lt in Hlt. rewrite Hlt. cbn [option_map Nat.add]. rewrite Hrow.
    reflexivity.
Qed.

(** X13. The same holds of the fraction loop of [runriana]: when the task
    of some match row raises, the fraction ends with the exception of the
    first such row in table order, for every pool size of at least one and
    every interleaving. *)
Theorem fraction_first_error
        (mzml : Type)
        (integrate_one : nat -> list Peaks.id_row -> list Z -> mzml ->
                         Q -> Q -> bool -> result row)
        (num_threads : Z) (es : list Futures.event)
        (id_df : list Peaks.id_row) (isos : list Z) (m : mzml)
        (rt_tolerance mass_tolerance : Q) (deuterium : bool) (file : string)
        (i : nat) (e : exn) (out : result (list Riana.out_row)) :
  (0 < num_threads)%Z ->
  (i < length id_df)%nat ->
  integrate_one i id_df isos m rt_tolerance mass_tolerance deuterium = inl e ->
  (forall j, (j < i)%nat ->
     exists row,
       integrate_one j id_df isos m rt_tolerance mass_tolerance deuterium
       = inr row) ->
  Riana.fraction mzml integrate_one num_threads es id_df isos m
                 rt_tolerance mass_tolerance deuterium file = Some out ->
  out = inl e.
Proof.
  intros Hn Hi He Hbefore. unfold Riana.fraction.
  destruct (num_threads <=? 0)%Z eqn:E; [apply Z.leb_le in E; lia|].
  destruct (Futures.map _ _ es (seq 0 (length id_df))) as [rs|] eqn:Emap;
    [|discriminate].
  apply map_in_submission_order in Emap. subst rs.
  intros H. inversion H; subst; clear H.
  rewrite length_seq.
  destruct (length id_df) as [|k] eqn:Hlen; [lia|].
  cbn [Riana.max_range bind ret].
  rewrite (collect_first_error _ i e); [reflexivity| |].
  - rewrite nth_error_map, nth_error_seq.
    apply Nat.ltb_lt in Hi. rewrite Hi. cbn [option_map Nat.add]. rewrite He.
    reflexivity.
  - intros j Hj. destruct (Hbefore j Hj) as (row & Hrow). exists row.
    rewrite nth_error_map, nth_error_seq.
    assert (Hlt : (j < S k)%nat) by lia.
    apply Nat.ltb_lt in Hlt. rewrite Hlt. cbn [option_map Nat.add]. rewrite Hrow.
    reflexivity.
Qed.

End MoreMultiwrapper.

(* ================================================================== *)
(** ** Further properties of [riana/riana.py] *)
(* ================================================================== *)

Section MoreFiles.
Import Py.
Local Open Scope string_scope.

(** *** Which names count as spectrum files *)

Lemma mz_ML_iff (s : string) :
  Files.mz_ML s = true
  <-> exists c3 c4 rest,
        s = String "m" (String "z" (String c3 (String c4 rest)))
        /\ (c3 = "M"%char \/ c3 = "m"%char)
        /\ (c4 = "L"%char \/ c4 = "l"%char).
Proof.
  split.
  - destruct s as [|c1 [|c2 [|c3 [|c4 rest]]]]; try discriminate.
    cbn [Files.mz_ML]. rewrite !andb_true_iff, !orb_true_iff, !Ascii.eqb_eq.
    intros [[[-> ->] H3] H4]. exists c3, c4, rest. auto.
  - intros (c3 & c4 & rest & -> & H3 & H4). cbn [Files.mz_ML].
    rewrite !andb_true_iff, !orb_true_iff, !Ascii.eqb_eq. auto.
Qed.

Lemma after_dot_iff (s : string) :
  Files.after_dot s = true
  <-> exists pre tail,
        s = pre ++ tail /\ no_newline pre /\ Files.mz_ML tail = true.
Proof.
  split.
  - induction s as [|c s IH]; cbn [Files.after_dot];
      rewrite orb_true_iff.
    + intros [H|H]; [|discriminate].
      exists "", "". repeat split; [|exact H]. intros c [].
    + intros [H|H].
      * exists "", (String c s). repeat split; [|exact H]. intros c' [].
      * apply andb_true_iff in H. destruct H as [Hc Hs].
        destruct (IH Hs) as (pre & tail & -> & Hpre & Htail).
        exists (String c pre), tail. repeat split; [|exact Htail].
        intros c' [<-|Hin]; [|exact (Hpre c' Hin)].
        intros Heq. rewrite Heq, Ascii.eqb_refl in Hc. discriminate.
  - intros (pre & tail & -> & Hpre & Htail).
    induction pre as [|c pre IH].
    + cbn [append]. destruct tail; cbn [Files.after_dot]; rewrite Htail;
        reflexivity.
    + cbn [append Files.after_dot]. apply orb_true_iff. right.
      apply andb_true_iff. split.
      * apply negb_true_iff, Ascii.eqb_neq. apply Hpre. left. reflexivity.
      * apply IH. intros c' Hin. apply Hpre. right. exact Hin.
Qed.

Lemma re_match_iff (f : string) :
  Files.re_match f = true <-> names_mzml f.
Proof.
  unfold names_mzml. split.
  - destruct f as [|c s]; [discriminate|]. cbn [Files.re_match].
    intros H. apply andb_true_iff in H. destruct H as [Hc Hs].
    apply after_dot_iff in Hs. destruct Hs as (pre & tail & -> & Hpre & Htail).
    apply mz_ML_iff in Htail. destruct Htail as (c3 & c4 & rest & -> & H3 & H4).
    exists (String c pre), c3, c4, rest.
    split; [reflexivity|]. split; [discriminate|]. split; [|auto].
    intros c' [<-|Hin]; [|exact (Hpre c' Hin)].
    intros Heq. rewrite Heq, Ascii.eqb_refl in Hc. discriminate.
  - intros (pre & c3 & c4 & rest & -> & Hne & Hpre & H3 & H4).
    destruct pre as [|c pre]; [congruence|].
    cbn [append Files.re_match]. apply andb_true_iff. split.
    + apply negb_true_iff, Ascii.eqb_neq. apply Hpre. left. reflexivity.
    + apply after_dot_iff. exists pre, (String "m" (String "z" (String c3 (String c4 rest)))).
      split; [reflexivity|]. split.
      * intros c' Hin. apply Hpre. right. exact Hin.
      * apply mz_ML_iff. exists c3, c4, rest. auto.
Qed.

Lemma append_assoc (a b c : string) : (a ++ b) ++ c = a ++ (b ++ c).
Proof.
  induction a as [|x a IH]; [reflexivity|]. cbn [append]. rewrite IH.
  reflexivity.
Qed.

Lemma no_newline_app (a b : string) :
  no_newline a -> no_newline b -> no_newline (a ++ b).
Proof.
  intros Ha Hb c Hin.
  assert (Hc : In c (list_ascii_of_string a) \/ In c (list_ascii_of_string b)).
  { clear Ha Hb. induction a as [|x a IH]; cbn [append list_ascii_of_string] in Hin.
    - right. exact Hin.
    - destruct Hin as [<-|Hin]; [left; left; reflexivity|].
      destruct (IH Hin) as [H|H]; [left; right; exact H|right; exact H]. }
  destruct Hc as [Hc|Hc]; [exact (Ha c Hc)|exact (Hb c Hc)].
Qed.

Lemma re_match_stem (f : string) (c3 c4 : ascii) :
  no_newline f ->
  (c3 = "M"%char \/ c3 = "m"%char) -> (c4 = "L"%char \/ c4 = "l"%char) ->
  Files.re_match (f ++ String "." (String "m" (String "z" (String c3 (String c4 "")))))
  = true.
Proof.
  intros Hf H3 H4. apply re_match_iff.
  exists (f ++ "."), c3, c4, "".
  split; [rewrite append_assoc; reflexivity|].
  split; [destruct f; discriminate|]. split; [|auto].
  apply no_newline_app; [exact Hf|].
  intros c [<-|[]]. discriminate.
Qed.

(** X14. A name passes the filter of the directory listing exactly when it
    reads: at least one character, none of them a newline, then [mz], then
    [M] or [m], then [L] or [l], then anything.  So text after the
    extension does not matter (a name that passes still passes with any
    suffix), and every name made of a stem without newline followed by
    [.mzML] or [.mzml] passes, the empty stem included. *)
Theorem mzml_name_filter (f : string) :
  (Files.re_match f = true <-> names_mzml f)
  /\ (forall suffix, Files.re_match f = true ->
                     Files.re_match (f ++ suffix) = true)
  /\ (no_newline f ->
      Files.re_match (f ++ ".mzML") = true
      /\ Files.re_match (f ++ ".mzml") = true).
Proof.
  split; [apply re_match_iff|]. split.
  - intros suffix H. apply re_match_iff in H. apply re_match_iff.
    destruct H as (pre & c3 & c4 & rest & -> & Hne & Hpre & H3 & H4).
    exists pre, c3, c4, (rest ++ suffix).
    split; [|auto]. rewrite append_assoc. reflexivity.
  - intros Hf. split; apply re_match_stem; auto.
Qed.

End MoreFiles.

Section MorePreflight.
Import Py.

(** *** The files of a sample against the fraction indices *)

Lemma files_insert_sorted_In (x y : string) (l : list string) :
  In y (Files.insert_sorted x l) <-> y = x \/ In y l.
Proof.
  induction l as [|a l IH]; cbn [Files.insert_sorted].
  - simpl. intuition.
  - destruct (String.leb x a); simpl; [intuition|]. rewrite IH. intuition.
Qed.

Lemma files_sort_In (y : string) (l : list string) :
  In y (Files.sort l) <-> In y l.
Proof.
  induction l as [|a l IH]; [reflexivity|].
  cbn [Files.sort fold_right]. fold (Files.sort l).
  rewrite files_insert_sorted_In, IH. simpl. intuition.
Qed.

Lemma files_insert_sorted_length (x : string) (l : list string) :
  length (Files.insert_sorted x l) = S (length l).
Proof.
  induction l as [|a l IH]; [reflexivity|]. cbn [Files.insert_sorted].
  destruct (String.leb x a); simpl; [reflexivity|]. rewrite IH. reflexivity.
Qed.

Lemma files_sort_length (l : list string) :
  length (Files.sort l) = length l.
Proof.
  induction l as [|a l IH]; [reflexivity|].
  cbn [Files.sort fold_right]. fold (Files.sort l).
  rewrite files_insert_sorted_length, IH. reflexivity.
Qed.

Lemma fold_left_max_bounds (l : list Z) (i : Z) :
  (i <= fold_left Z.max l i)%Z
  /\ (forall x, In x l -> x <= fold_left Z.max l i)%Z
  /\ In (fold_left Z.max l i) (i :: l).
Proof.
  revert i. induction l as [|a l IH]; intros i; cbn [fold_left].
  - split; [lia|]. split; [intros x []|left; reflexivity].
  - destruct (IH (Z.max i a)) as (H1 & H2 & H3). split; [lia|]. split.
    + intros x [<-|Hx]; [lia|apply H2; exact Hx].
    + destruct H3 as [H3|H3]; [|right; right; exact H3].
      rewrite <- H3. destruct (Z.max_spec i a) as [[_ ->]|[_ ->]];
        [right; left; reflexivity|left; reflexivity].
Qed.

Lemma max_index_spec (indices : list Z) (m : Z) :
  Files.max_index indices = inr m ->
  In m indices /\ forall x, In x indices -> (x <= m)%Z.
Proof.
  destruct indices as [|i l]; [discriminate|]. cbn [Files.max_index ret].
  intros H. inversion H; subst; clear H.
  destruct (fold_left_max_bounds l i) as (H1 & H2 & H3).
  split; [exact H3|]. intros x [<-|Hx]; [exact H1|exact (H2 x Hx)].
Qed.

(** X15. When the two assertions pass, every fraction index that is not
    negative picks a file: no subscript of the fraction loop is out of
    range.  The file picked is a name of the directory listing that passed
    the filter, the list holds every such name, and its last file belongs
    to the largest fraction index. *)
Theorem checked_files_cover_indices (listdir : list string) (indices : list Z)
        (files : list string) :
  Files.mzml_files listdir indices = inr files ->
  (forall idx, In idx indices -> (0 <= idx)%Z ->
     exists f, Files.getitem files idx = Some f
               /\ In f listdir /\ Files.re_match f = true)
  /\ (forall f, In f files <-> In f listdir /\ Files.re_match f = true)
  /\ In (Z.of_nat (length files) - 1)%Z indices.
Proof.
  unfold Files.mzml_files. cbv zeta.
  set (fs := Files.sort (filter Files.re_match listdir)).
  destruct (Nat.eqb (length fs) 0); [discriminate|].
  destruct (Files.max_index indices) as [e|m] eqn:Em; [discriminate|].
  cbn [bind ret].
  destruct (Z.of_nat (length fs) =? m + 1)%Z eqn:E; [|discriminate].
  apply Z.eqb_eq in E. intros H. inversion H; subst files; clear H.
  apply max_index_spec in Em. destruct Em as [Hin Hmax].
  assert (Hmem : forall f, In f fs <-> In f listdir /\ Files.re_match f = true).
  { intros f. unfold fs. rewrite files_sort_In. apply filter_In. }
  split; [|split].
  - intros idx Hidx Hpos. unfold Files.getitem.
    apply Z.leb_le in Hpos. rewrite Hpos. apply Z.leb_le in Hpos.
    specialize (Hmax idx Hidx).
    destruct (nth_error fs (Z.to_nat idx)) as [f|] eqn:Ef.
    + exists f. split; [reflexivity|]. apply Hmem.
      eapply nth_error_In. exact Ef.
    + apply nth_error_None in Ef. lia.
  - exact Hmem.
  - replace (Z.of_nat (length fs) - 1)%Z with m by lia. exact Hin.
Qed.

(** X16. How the check of the files fails: without any name that passes
    the filter the first assertion fails; with such names but no fraction
    index, [max] raises [ValueError]; and the second assertion fails as soon
    as the largest fraction index is not the number of files minus one, in
    particular when the last fraction of the sample has no identification
    (every index below the last file) although every index has its
    file. *)
Theorem checked_files_failures (listdir : list string) (indices : list Z) :
  (filter Files.re_match listdir = [] ->
   Files.mzml_files listdir indices = inl AssertionError)
  /\ (filter Files.re_match listdir <> [] -> indices = [] ->
      Files.mzml_files listdir indices = inl ValueError)
  /\ (filter Files.re_match listdir <> [] -> indices <> [] ->
      (forall idx, In idx indices ->
         (idx + 1 < Z.of_nat (length (filter Files.re_match listdir)))%Z) ->
      Files.mzml_files listdir indices = inl AssertionError)
  /\ (filter Files.re_match listdir <> [] ->
      (exists idx, In idx indices
         /\ (Z.of_nat (length (filter Files.re_match listdir)) <= idx)%Z) ->
      Files.mzml_files listdir indices = inl AssertionError).
Proof.
  unfold Files.mzml_files. cbv zeta. rewrite files_sort_length.
  split; [|split; [|split]].
  - intros ->. reflexivity.
  - intros Hne ->.
    destruct (filter Files.re_match listdir); [congruence|]. reflexivity.
  - intros Hne Hidx Hall.
    destruct (filter Files.re_match listdir) as [|f fs] eqn:Ef; [congruence|].
    cbn [length Nat.eqb].
    destruct (Files.max_index indices) as [e|m] eqn:Em.
    + destruct indices; [congruence|discriminate].
    + cbn [bind]. apply max_index_spec in Em. destruct Em as [Hin _].
      specialize (Hall m Hin). cbn [length] in Hall.
      destruct (Z.of_nat (S (length fs)) =? m + 1)%Z eqn:E; [|reflexivity].
      apply Z.eqb_eq in E. lia.
  - intros Hne (idx & Hidx & Hbig).
    destruct (filter Files.re_match listdir) as [|f fs] eqn:Ef; [congruence|].
    cbn [length Nat.eqb].
    destruct (Files.max_index indices) as [e|m] eqn:Em.
    + destruct indices; [destruct Hidx|discriminate].
    + cbn [bind]. apply max_index_spec in Em. destruct Em as [_ Hmax].
      specialize (Hmax idx Hidx). cbn [length] in Hbig.
      destruct (Z.of_nat (S (length fs)) =? m + 1)%Z eqn:E; [|reflexivity].
      apply Z.eqb_eq in E. lia.
Qed.

End MorePreflight.

Section MoreRun.
Import Py.

(** *** The order of the files *)

Lemma compare_append_prefix (p a b : string) :
  String.compare (p ++ a) (p ++ b) = String.compare a b.
Proof.
  induction p as [|c p IH]; [reflexivity|].
  cbn [append String.compare].
  replace (Ascii.compare c c) with Eq; [exact IH|].
  symmetry. unfold Ascii.compare. apply N.compare_refl.
Qed.

Lemma leb_append_prefix (p a b : string) :
  String.leb (p ++ a) (p ++ b) = String.leb a b.
Proof.
  unfold String.leb. rewrite compare_append_prefix. reflexivity.
Qed.

(** X17. The files are sorted character by character, not by number: of
    two names that differ in a fraction number 2 against 10 after the same
    stem, the one numbered 10 comes first, so fraction index 0 reads file
    10 and fraction index 1 reads file 2, in whichever order the directory
    lists them. *)
Theorem numbered_files_out_of_order (stem : string) :
  no_newline stem ->
  Files.mzml_files [stem ++ "2.mzML"; stem ++ "10.mzML"]%string [0; 1]
  = inr [stem ++ "10.mzML"; stem ++ "2.mzML"]%string
  /\ Files.mzml_files [stem ++ "10.mzML"; stem ++ "2.mzML"]%string [0; 1]
     = inr [stem ++ "10.mzML"; stem ++ "2.mzML"]%string
  /\ Files.getitem [stem ++ "10.mzML"; stem ++ "2.mzML"]%string 0
     = Some (stem ++ "10.mzML")%string
  /\ Files.getitem [stem ++ "10.mzML"; stem ++ "2.mzML"]%string 1
     = Some (stem ++ "2.mzML")%string.
Proof.
  intros Hstem.
  assert (H2 : Files.re_match (stem ++ "2.mzML") = true).
  { change "2.mzML"%string with ("2" ++ ".mzML")%string.
    rewrite <- append_assoc. apply re_match_stem; auto.
    apply no_newline_app; [exact Hstem|]. intros c [<-|[]]. discriminate. }
  assert (H10 : Files.re_match (stem ++ "10.mzML") = true).
  { change "10.mzML"%string with ("10" ++ ".mzML")%string.
    rewrite <- append_assoc. apply re_match_stem; auto.
    apply no_newline_app; [exact Hstem|].
    intros c [<-|[<-|[]]]; discriminate. }
  assert (Hlt : String.leb (stem ++ "2.mzML") (stem ++ "10.mzML") = false)
    by (rewrite leb_append_prefix; reflexivity).
  assert (Hgt : String.leb (stem ++ "10.mzML") (stem ++ "2.mzML") = true)
    by (rewrite leb_append_prefix; reflexivity).
  unfold Files.mzml_files. cbn [filter]. rewrite H2, H10.
  cbn [Files.sort fold_right Files.insert_sorted]. rewrite Hlt, Hgt.
  repeat split.
Qed.

(** *** The isotopomer request as a set *)

Lemma strictly_sorted_same_members (l l' : list Z) :
  StronglySorted Z.lt l -> StronglySorted Z.lt l' ->
  (forall n, In n l <-> In n l') -> l = l'.
Proof.
  intros HS. revert l'. induction HS as [|a l HS IH Ha]; intros l' HS' Hmem.
  - destruct l' as [|b l']; [reflexivity|].
    exfalso. apply (proj2 (Hmem b)). left. reflexivity.
  - destruct HS' as [|b l' HS' Hb].
    + exfalso. apply (proj1 (Hmem a)). left. reflexivity.
    + rewrite Forall_forall in Ha, Hb.
      assert (Hab : a = b).
      { destruct (proj1 (Hmem a) (or_introl eq_refl)) as [Hba|Hin];
          [congruence|].
        destruct (proj2 (Hmem b) (or_introl eq_refl)) as [Hba|Hin'];
          [congruence|].
        specialize (Ha b Hin'). specialize (Hb a Hin). lia. }
      subst b. f_equal. apply IH; [exact HS'|].
      intros n. split; intros Hn.
      * destruct (proj1 (Hmem n) (or_intror Hn)) as [Heq|H]; [|exact H].
        specialize (Ha n Hn). lia.
      * destruct (proj2 (Hmem n) (or_intror Hn)) as [Heq|H]; [|exact H].
        specialize (Hb n Hn). lia.
Qed.

(** X18. The resolved request depends only on which integers of at most
    15 the request names, not on their order, their repetition or the
    tokens that were dropped: two requests that name the same such integers
    resolve to the same list, or both exit. *)
Theorem iso_request_is_a_set (iso iso' : string) :
  (forall n,
      (exists tok, In tok (split iso ","%char)
                   /\ int_of_string tok = Some n /\ n <= 15)
      <-> (exists tok, In tok (split iso' ","%char)
                       /\ int_of_string tok = Some n /\ n <= 15)) ->
  Riana.iso_to_do iso = Riana.iso_to_do iso'.
Proof.
  intros Hsame.
  assert (Hmem : forall n, In n (flat_map kept (split iso ","%char))
                           <-> In n (flat_map kept (split iso' ","%char))).
  { intros n. rewrite !in_kept. apply Hsame. }
  pose proof (iso_to_do_spec iso) as H. pose proof (iso_to_do_spec iso') as H'.
  destruct (Riana.iso_to_do iso) as [e|l], (Riana.iso_to_do iso') as [e'|l'].
  - destruct H as [-> _], H' as [-> _]. reflexivity.
  - exfalso. destruct H as [_ Hnil], H' as (_ & Hne & _).
    destruct (flat_map kept (split iso' ","%char)) as [|a k] eqn:E;
      [congruence|].
    specialize (Hmem a). rewrite Hnil in Hmem. apply (proj2 Hmem).
    left. reflexivity.
  - exfalso. destruct H' as [_ Hnil], H as (_ & Hne & _).
    destruct (flat_map kept (split iso ","%char)) as [|a k] eqn:E;
      [congruence|].
    specialize (Hmem a). rewrite Hnil in Hmem. apply (proj1 Hmem).
    left. reflexivity.
  - destruct H as (HS & _ & Hl), H' as (HS' & _ & Hl'). f_equal.
    apply strictly_sorted_same_members; [exact HS|exact HS'|].
    intros n. rewrite Hl, Hl'. apply Hmem.
Qed.

(** X20. A fraction whose match list is empty does not give an empty
    table: [max(loop_)] raises [ValueError] on the empty range, for every
    task, every pool size of at least one and every execution. *)
Theorem empty_fraction_raises
        (mzml : Type)
        (integrate_one : nat -> list Peaks.id_row -> list Z -> mzml ->
                         Q -> Q -> bool -> result Peaks.row)
        (num_threads : Z) (isos : list Z) (m : mzml)
        (rt_tolerance mass_tolerance : Q) (deuterium : bool) (file : string) :
  0 < num_threads ->
  (forall es out,
      Riana.fraction mzml integrate_one num_threads es [] isos m rt_tolerance
                     mass_tolerance deuterium file = Some out ->
      out = inl ValueError)
  /\ Riana.fraction mzml integrate_one num_threads [] [] isos m rt_tolerance
                    mass_tolerance deuterium file
     = Some (inl ValueError).
Proof.
  intros Hn. unfold Riana.fraction.
  destruct (num_threads <=? 0) eqn:E; [apply Z.leb_le in E; lia|].
  split; [|reflexivity].
  intros es out H.
  destruct (Futures.map _ _ es _) as [rs|]; [|discriminate].
  inversion H. reflexivity.
Qed.

End MoreRun.

(* ================================================================== *)
(** ** The further properties at explicit inputs *)
(* ================================================================== *)

Section MoreWitnesses.
Import Py Peaks.
Local Open Scope Q_scope.

Lemma get_isotopes_from_amrt_errors_witness :
  exists iot, get_isotopes_from_amrt Inputs.mixed_levels 1000 2 2 = inr iot.
Proof.
  destruct (proj2 (get_isotopes_from_amrt_errors Inputs.mixed_levels 1000 2 2)
                  10 eq_refl eq_refl) as (_ & _ & Hok).
  apply Hok.
  - intros x [<-|[<-|[<-|[<-|[]]]]] Hw H; vm_compute in Hw, H;
      discriminate.
  - right. intros x Hin H. vm_compute in Hin.
    destruct Hin as [<-|[<-|[]]]; vm_compute in H; discriminate H.
Defined.

Lemma get_isotopes_from_amrt_shape_witness :
  exists iot,
    get_isotopes_from_amrt Inputs.mixed_levels 1000 2 2 = inr iot
    /\ length iot = 4%nat.
Proof.
  destruct (get_isotopes_from_amrt Inputs.mixed_levels 1000 2 2)
    as [e|iot] eqn:E; [vm_compute in E; discriminate E|].
  exists iot. split; [reflexivity|].
  rewrite (proj1 (get_isotopes_from_amrt_shape Inputs.mixed_levels 1000 2 2 10
                    iot eq_refl E)).
  reflexivity.
Defined.

Lemma get_isotopes_from_amrt_selection_witness :
  exists iot,
    get_isotopes_from_amrt Inputs.mixed_levels 1000 2 2 = inr iot
    /\ In (entry Inputs.mixed_levels ((1000 + 2 * proton) / 2) 2 3 10.5 1) iot.
Proof.
  destruct (get_isotopes_from_amrt Inputs.mixed_levels 1000 2 2)
    as [e|iot] eqn:E; [vm_compute in E; discriminate E|].
  exists iot. split; [reflexivity|].
  apply (proj2 (get_isotopes_from_amrt_selection Inputs.mixed_levels 1000 2 2 10
                  iot _ eq_refl E)).
  exists 3%Z, 10.5, 1%Z. split; [simpl; tauto|].
  split; [vm_compute; discriminate|]. split; [reflexivity|].
  split; [simpl; tauto|reflexivity].
Defined.

Lemma negative_rt_tolerance_reads_nothing_witness :
  get_isotopes_from_amrt_wrapper Inputs.negative_tolerance 0
  = inr (set_intensity_over_time Inputs.negative_tolerance [],
         {| r_index := 0; r_pep_id := "pepA"; r_areas := [0; 0] |}).
Proof.
  apply (proj2 (negative_rt_tolerance_reads_nothing Inputs.negative_tolerance
                  0 (Scenario.match_row "pepA" 2) 10
                  ltac:(reflexivity) eq_refl eq_refl eq_refl)).
Defined.

Lemma sorted_index_needs_no_clamp_witness :
  exists iot,
    get_isotopes_from_amrt
      (Scenario.peaks_over Scenario.three_scans [Scenario.match_row "pepA" 2])
      1000 2 2 = inr iot
    /\ iso_area (isotopomer_profile iot 0)
       == trapz (map snd (isotopomer_profile iot 0))
                (map fst (isotopomer_profile iot 0)).
Proof.
  destruct (get_isotopes_from_amrt
              (Scenario.peaks_over Scenario.three_scans
                                   [Scenario.match_row "pepA" 2])
              1000 2 2) as [e|iot] eqn:E; [vm_compute in E; discriminate E|].
  exists iot. split; [reflexivity|].
  apply (sorted_index_needs_no_clamp
           (Scenario.peaks_over Scenario.three_scans
                                [Scenario.match_row "pepA" 2])
           1000 2 2 iot 0%Z); [| |exact E].
  - simpl. repeat constructor; unfold Qle; simpl; lia.
  - intros i peaks Hin. simpl in Hin.
    destruct Hin as [H|[H|[H|[]]]]; inversion H; subst;
      repeat constructor; unfold Qle; simpl; lia.
Defined.

Lemma descending_profile_area_zero_witness :
  iso_area [(10, 200); (9.5, 100)] == 0.
Proof.
  apply (descending_profile_area_zero [(10, 200); (9.5, 100)]).
  - simpl. repeat constructor; unfold Qle; simpl; lia.
  - repeat constructor; unfold Qle; simpl; lia.
Defined.

Lemma nonpositive_mass_tolerance_matches_nothing_witness :
  matching_int (upper 501 0) (lower 501 0) [(501, 100)] == 0.
Proof.
  apply (nonpositive_mass_tolerance_matches_nothing 501 0 [(501, 100)]).
  - unfold Qle; simpl; lia.
  - unfold Qle; simpl; lia.
Defined.

Lemma wider_window_sums_more_witness :
  matching_int (upper 501 (1 # 1000)) (lower 501 (1 # 1000))
               [(501, 100); (501.5, 40)]
  <= matching_int (upper 501 (1 # 100)) (lower 501 (1 # 100))
                  [(501, 100); (501.5, 40)].
Proof.
  apply (proj2 (wider_window_sums_more [(501, 100); (501.5, 40)]
                  ltac:(repeat constructor; unfold Qle; simpl; lia))).
  - unfold Qle; simpl; lia.
  - unfold Qle; simpl; lia.
Defined.

Lemma wrapper_reads_no_stale_state_witness :
  get_isotopes_from_amrt_wrapper Inputs.mixed_levels 1 = inl KeyError.
Proof.
  apply (proj1 (wrapper_reads_no_stale_state Inputs.mixed_levels 1)).
  simpl. lia.
Defined.

End MoreWitnesses.

Section MoreRunWitnesses.
Import Py.

Lemma multiwrapper_rows_in_order_witness :
  exists es out,
    PeaksMulti.get_isotopes_from_amrt_multiwrapper
      2 es (Scenario.peaks_over Scenario.three_scans Scenario.two_found) 4
    = Some out.
Proof.
  apply (proj2 (proj2 (proj2 (multiwrapper_rows_in_order
                                2 (Scenario.peaks_over Scenario.three_scans
                                                       Scenario.two_found) 4)))).
  - lia.
  - lia.
Defined.

Lemma multiwrapper_first_error_witness :
  PeaksMulti.get_isotopes_from_amrt_multiwrapper
    2 (Futures.sequential 1)
    (Scenario.peaks_over Scenario.three_scans Scenario.one_lost) 4
  = Some (inl TypeError).
Proof.
  destruct (PeaksMulti.get_isotopes_from_amrt_multiwrapper
              2 (Futures.sequential 1)
              (Scenario.peaks_over Scenario.three_scans Scenario.one_lost) 4)
    as [out|] eqn:E; [|vm_compute in E; discriminate E].
  f_equal.
  apply (multiwrapper_first_error 2 (Futures.sequential 1)
           (Scenario.peaks_over Scenario.three_scans Scenario.one_lost) 4
           1%nat TypeError out); try lia.
  - simpl. lia.
  - vm_compute. reflexivity.
  - intros j Hj. assert (j = 0%nat) by lia. subst j. eexists.
    vm_compute. reflexivity.
  - exact E.
Defined.

Lemma fraction_first_error_witness :
  Riana.fraction spectra peaks_task 4 Scenario.interleaved Scenario.one_lost
                 [0; 1] Scenario.three_scans 1 (100 # 1000000) false "f01.mzML"
  = Some (inl TypeError).
Proof.
  destruct (Riana.fraction spectra peaks_task 4 Scenario.interleaved
              Scenario.one_lost [0; 1] Scenario.three_scans 1 (100 # 1000000)
              false "f01.mzML") as [out|] eqn:E;
    [|vm_compute in E; discriminate E].
  f_equal.
  apply (fraction_first_error spectra peaks_task 4 Scenario.interleaved
           Scenario.one_lost [0; 1] Scenario.three_scans 1 (100 # 1000000)
           false "f01.mzML" 1%nat TypeError out); try lia.
  - simpl. lia.
  - vm_compute. reflexivity.
  - intros j Hj. assert (j = 0%nat) by lia. subst j. eexists.
    vm_compute. reflexivity.
  - exact E.
Defined.

Lemma mzml_name_filter_witness :
  Files.re_match "f_1.mzML.idx" = true.
Proof.
  apply (proj1 (proj2 (mzml_name_filter "f_1.mzML")) ".idx"%string).
  reflexivity.
Defined.

Lemma checked_files_cover_indices_witness :
  exists files f,
    Files.mzml_files Inputs.listing [0; 1; 2; 3] = inr files
    /\ Files.getitem files 3 = Some f.
Proof.
  destruct (Files.mzml_files Inputs.listing [0; 1; 2; 3]) as [e|files] eqn:E;
    [vm_compute in E; discriminate E|].
  destruct (proj1 (checked_files_cover_indices _ _ _ E) 3) as (f & Hf & _).
  - simpl. tauto.
  - lia.
  - exists files, f. split; [reflexivity|exact Hf].
Defined.

Lemma checked_files_failures_witness :
  Files.mzml_files Inputs.listing [0; 1; 2] = inl AssertionError.
Proof.
  apply (proj1 (proj2 (proj2 (checked_files_failures Inputs.listing [0; 1; 2])))).
  - vm_compute. discriminate.
  - discriminate.
  - intros idx Hin. vm_compute in Hin.
    destruct Hin as [<-|[<-|[<-|[]]]]; vm_compute; reflexivity.
Defined.

Lemma numbered_files_out_of_order_witness :
  Files.mzml_files ["f_2.mzML"; "f_10.mzML"]%string [0; 1]
  = inr ["f_10.mzML"; "f_2.mzML"]%string.
Proof.
  assert (H : no_newline "f_") by (intros c [<-|[<-|[]]]; discriminate).
  exact (proj1 (numbered_files_out_of_order "f_" H)).
Defined.

Lemma iso_request_is_a_set_witness :
  Riana.iso_to_do "6, 0 ,6,x,20" = Riana.iso_to_do "0,6".
Proof.
  apply iso_request_is_a_set. intros n. split.
  - intros (tok & Hin & Hp & Hle). vm_compute in Hin.
    destruct Hin as [<-|[<-|[<-|[<-|[<-|[]]]]]]; vm_compute in Hp;
      inversion Hp; subst.
    + exists "6"%string. split; [simpl; tauto|]. split; [reflexivity|lia].
    + exists "0"%string. split; [simpl; tauto|]. split; [reflexivity|lia].
    + exists "6"%string. split; [simpl; tauto|]. split; [reflexivity|lia].
    + lia.
  - intros (tok & Hin & Hp & Hle). vm_compute in Hin.
    destruct Hin as [<-|[<-|[]]]; vm_compute in Hp; inversion Hp; subst.
    + exists " 0 "%string. split; [simpl; tauto|]. split; [reflexivity|lia].
    + exists "6"%string. split; [simpl; tauto|]. split; [reflexivity|lia].
Defined.

Lemma empty_fraction_raises_witness :
  Riana.fraction spectra peaks_task 8 [] [] [0; 6] Scenario.three_scans 1
                 (100 # 1000000) false "f01.mzML"
  = Some (inl ValueError).
Proof.
  apply (proj2 (empty_fraction_raises spectra peaks_task 8 [0; 6]
                  Scenario.three_scans 1 (100 # 1000000) false "f01.mzML"
                  ltac:(lia))).
Defined.

End MoreRunWitnesses.
